(** * Medical-System: the session state pipeline of [main.py]

    A shallow embedding of the state-changing code of the Streamlit
    dashboard: [init_session_state], [audio_callback], the stop-recording
    branch of [voice_input_component], [medication_reminder] with its two
    buttons, the update button of [user_profile_section], the send handler
    of [chat_interface], [process_user_input], the mock backend
    [get_ai_response] and [main].  Of the rendering code, the data frames of
    the two charts, the rows of the reminder list and the alert are
    modelled; the page layout is left out.

    Conventions.
    - A Python [str] is a list of Unicode code points ([list N]); literals
      are written as UTF-8 strings and decoded by [py].
    - A Python [float] is a binary64 primitive float.
    - [st.session_state] is the record [State]; code that mutates it is a
      computation in the monad [M], which threads the state and carries a
      raised exception outwards together with the state as mutated so far.
    - Calls that leave the file are inputs: the two clock readings of a
      turn are arguments, the service behind [get_ai_response] and the
      recogniser [speech_to_text], which the source leaves undefined, are
      section variables (deterministic functions that may raise). *)

From Stdlib Require Import NArith ZArith String Ascii Floats Bool Lia.
From stdpp Require Import base list.

Set Warnings "-inexact-float".
Local Open Scope N_scope.

(** ** Python strings *)

Module PyStr.

Definition str := list N.

(** Decoder for the UTF-8 bytes of a source literal (1 to 4 byte forms). *)
Fixpoint utf8_decode (bs : list N) : str :=
  match bs with
  | [] => []
  | b0 :: tl =>
    if b0 <? 0x80 then b0 :: utf8_decode tl
    else if b0 <? 0xE0 then
      match tl with
      | b1 :: tl1 => ((b0 mod 0x20) * 0x40 + b1 mod 0x40) :: utf8_decode tl1
      | _ => []
      end
    else if b0 <? 0xF0 then
      match tl with
      | b1 :: b2 :: tl2 =>
        ((b0 mod 0x10) * 0x1000 + (b1 mod 0x40) * 0x40 + b2 mod 0x40)
          :: utf8_decode tl2
      | _ => []
      end
    else
      match tl with
      | b1 :: b2 :: b3 :: tl3 =>
        ((b0 mod 0x08) * 0x40000 + (b1 mod 0x40) * 0x1000
         + (b2 mod 0x40) * 0x40 + b3 mod 0x40) :: utf8_decode tl3
      | _ => []
      end
  end.

Definition py (s : string) : str :=
  utf8_decode (List.map N_of_ascii (list_ascii_of_string s)).

(** [c.isspace()] for one code point: the characters [str.strip()] removes. *)
Definition isspace (c : N) : bool :=
  ((9 <=? c) && (c <=? 13)) || ((28 <=? c) && (c <=? 32))
  || (c =? 0x85) || (c =? 0xA0) || (c =? 0x1680)
  || ((0x2000 <=? c) && (c <=? 0x200A))
  || (c =? 0x2028) || (c =? 0x2029) || (c =? 0x202F) || (c =? 0x205F)
  || (c =? 0x3000).

Fixpoint lstrip (t : str) : str :=
  match t with
  | [] => []
  | c :: t' => if isspace c then lstrip t' else t
  end.

Definition rstrip (t : str) : str := rev (lstrip (rev t)).

(** [text.strip()] *)
Definition strip (t : str) : str := rstrip (lstrip t).

(** Truth value of a string in a condition: [if text:]. *)
Definition truthy (t : str) : bool :=
  match t with [] => false | _ :: _ => true end.

Fixpoint startswith (p t : str) : bool :=
  match p, t with
  | [], _ => true
  | _ :: _, [] => false
  | a :: p', b :: t' => (a =? b) && startswith p' t'
  end.

(** [needle in text] *)
Fixpoint contains (needle text : str) : bool :=
  startswith needle text
  || match text with
     | [] => false
     | _ :: text' => contains needle text'
     end.

End PyStr.
Import PyStr.

(** ** Data model *)

(** [{'type': 'user' | 'system', 'content': ..., 'time': ...}] *)
Inductive msg_type := User | System.

Record message := Message {
  msg_type_of : msg_type;
  msg_content : str;
  msg_time : str
}.

(** [user_profile] *)
Record profile := Profile {
  name : str;
  age : Z;
  gender : str;
  medical_history : list str
}.

(** The [data] section of a backend response. *)
Record node := Node { node_id : str; node_group : Z }.
Record link := Link { source : str; target : str; value : float }.
Record network := Network { nodes : list node; links : list link }.

(** A dict with the optional keys ['symptom_network'] and
    ['probabilities'] (readers use [.get(key, {})]); the probability table
    is an insertion-ordered dict, kept as an association list. *)
Record diagnosis := Diagnosis {
  symptom_network : option network;
  probabilities : option (list (str * float))
}.

(** [{}] *)
Definition empty_dict : diagnosis := Diagnosis None None.

Inductive status := Pending | Done.

(** [{'name': ..., 'time': "HH:MM", 'status': 'pending' | 'done'}] *)
Record medication := Medication {
  med_name : str;
  med_time : str;
  med_status : status
}.

(** A two-dimensional [numpy] array, [frame.to_ndarray()]: shape
    [(length arows, ncols)]. *)
Record ndarray := NdArray { ncols : nat; arows : list (list Z) }.

(** [st.session_state].  [warning] is [None] while the attribute has never
    been assigned, [Some None] when it holds Python's [None]. *)
Record State := mkState {
  conversation : list message;
  user_profile : profile;
  diagnosis_data : diagnosis;
  medications : list medication;
  audio_buffer : list ndarray;
  warning : option (option str)
}.

Definition set_conversation (v : list message) (s : State) : State :=
  mkState v (user_profile s) (diagnosis_data s) (medications s)
          (audio_buffer s) (warning s).
Definition set_user_profile (v : profile) (s : State) : State :=
  mkState (conversation s) v (diagnosis_data s) (medications s)
          (audio_buffer s) (warning s).
Definition set_diagnosis_data (v : diagnosis) (s : State) : State :=
  mkState (conversation s) (user_profile s) v (medications s)
          (audio_buffer s) (warning s).
Definition set_medications (v : list medication) (s : State) : State :=
  mkState (conversation s) (user_profile s) (diagnosis_data s) v
          (audio_buffer s) (warning s).
Definition set_audio_buffer (v : list ndarray) (s : State) : State :=
  mkState (conversation s) (user_profile s) (diagnosis_data s)
          (medications s) v (warning s).
Definition set_warning (v : option str) (s : State) : State :=
  mkState (conversation s) (user_profile s) (diagnosis_data s)
          (medications s) (audio_buffer s) (Some v).

(** ** Exceptions and the state monad *)

Inductive exn :=
  ValueError | KeyError | IndexError | TimeoutError | StreamlitAPIException.

Inductive result (A : Type) :=
| Returned (a : A)
| Raised (e : exn).
Arguments Returned {A} a.
Arguments Raised {A} e.

(** A computation on the session state.  A raised exception comes with the
    state as it was mutated before the raise: Python does not roll back. *)
Definition M (A : Type) : Type := State -> State * result A.

Definition ret {A} (a : A) : M A := fun s => (s, Returned a).

Definition bind {A B} (c : M A) (k : A -> M B) : M B :=
  fun s => match c s with
           | (s', Returned a) => k a s'
           | (s', Raised e) => (s', Raised e)
           end.

Definition get : M State := fun s => (s, Returned s).
Definition modify (f : State -> State) : M unit := fun s => (f s, Returned tt).

(** The outcome of a call that does not touch the session state. *)
Definition call {A} (r : result A) : M A := fun s => (s, r).

Declare Scope py_scope.
Delimit Scope py_scope with py.
Notation "x <- c ;; k" := (bind c (fun x => k))
  (at level 100, c at next level, right associativity) : py_scope.
Notation "c ;; k" := (bind c (fun _ => k))
  (at level 100, right associativity) : py_scope.
Local Open Scope py_scope.

(** ** Session initialisation *)

(** [session_defaults] *)
Definition session_defaults : State :=
  {| conversation := [];
     user_profile := Profile [] 30 (py "male") [];
     diagnosis_data := empty_dict;
     medications := [];
     audio_buffer := [];
     warning := None |}.

(** The keys of [st.session_state] before [init_session_state] has run:
    each may be missing. *)
Record raw_session := RawSession {
  raw_conversation : option (list message);
  raw_user_profile : option profile;
  raw_diagnosis_data : option diagnosis;
  raw_medications : option (list medication);
  raw_audio_buffer : option (list ndarray);
  raw_warning : option (option str)
}.

(** A new session: no key is set. *)
Definition empty_session : raw_session :=
  RawSession None None None None None None.

(** [init_session_state]: a key that is present keeps its value, a missing
    one gets its default; ['warning'] is not among the defaults.  [main]
    runs it before every component and no code deletes a key, so the
    components always see a [State]. *)
Definition init_session_state (raw : raw_session) : State :=
  {| conversation :=
       default (conversation session_defaults) (raw_conversation raw);
     user_profile :=
       default (user_profile session_defaults) (raw_user_profile raw);
     diagnosis_data :=
       default (diagnosis_data session_defaults) (raw_diagnosis_data raw);
     medications :=
       default (medications session_defaults) (raw_medications raw);
     audio_buffer :=
       default (audio_buffer session_defaults) (raw_audio_buffer raw);
     warning := raw_warning raw |}.

(** The keys as a script run leaves them for the next one. *)
Definition stored (s : State) : raw_session :=
  {| raw_conversation := Some (conversation s);
     raw_user_profile := Some (user_profile s);
     raw_diagnosis_data := Some (diagnosis_data s);
     raw_medications := Some (medications s);
     raw_audio_buffer := Some (audio_buffer s);
     raw_warning := warning s |}.

(** ** Backend *)

(** The dict a backend returns.  [answer] is read with [response['answer']],
    the others with [response.get]; a key may be missing, and ['warning']
    may hold [None]. *)
Record response := Response {
  answer : option str;
  data : option diagnosis;
  resp_warning : option (option str)
}.

(** [response['answer']] *)
Definition getitem_answer (r : response) : result str :=
  match answer r with
  | Some a => Returned a
  | None => Raised KeyError
  end.

(** [response.get('data', {})] *)
Definition get_data (r : response) : diagnosis :=
  match data r with
  | Some d => d
  | None => empty_dict
  end.

(** [response.get('warning')] *)
Definition get_warning (r : response) : option str :=
  match resp_warning r with
  | Some w => w
  | None => None
  end.

(** [get_ai_response]: the mock service of the source. *)
Definition get_ai_response (text : str) : response :=
  {| answer := Some (py "收到症状：" ++ text
                       ++ py "。请补充说明：疼痛程度如何？");
     data := Some
       {| symptom_network := Some
            {| nodes := [ Node (py "头痛") 1; Node (py "发热") 2 ];
               links := [ Link (py "头痛") (py "发热") 0.8%float ] |};
          probabilities := Some
            [ (py "感冒", 0.65%float);
              (py "流感", 0.25%float);
              (py "偏头痛", 0.1%float) ] |};
     resp_warning := Some
       (if contains (py "发热") text
        then Some (py "持续高热需立即就医")
        else None) |}.

(** ** Conversation turn *)

Section Turn.

(** What the call [get_ai_response(text)] yields once the mock is replaced
    by a service, as the source asks for: a response or an exception. *)
Variable backend : str -> result response.

(** [process_user_input(text)]; [now1] and [now2] are the two readings of
    [datetime.now().strftime("%H:%M:%S")]. *)
Definition process_user_input (now1 now2 : str) (text : str) : M unit :=
  if truthy (strip text) then
    modify (fun s =>
      set_conversation (conversation s ++ [Message User text now1]) s) ;;
    response <- call (backend text) ;;
    content <- call (getitem_answer response) ;;
    modify (fun s =>
      set_conversation (conversation s ++ [Message System content now2]) s) ;;
    modify (set_diagnosis_data (get_data response)) ;;
    modify (set_warning (get_warning response))
  else ret tt.

End Turn.

(** The source as written: the backend is the mock and never raises. *)
Definition mock_backend (text : str) : result response :=
  Returned (get_ai_response text).

(** The alert of [chat_interface]: [if st.session_state.get('warning')]
    shows the warning only when it is a non-empty string. *)
Definition active_warning (s : State) : option str :=
  match warning s with
  | Some (Some w) => if truthy w then Some w else None
  | _ => None
  end.

(** A probability as the display expects it: [0 <= p <= 1]. *)
Definition in_unit (p : float) : bool :=
  PrimFloat.leb 0%float p && PrimFloat.leb p 1%float.

Definition probability_values (d : diagnosis) : list float :=
  match probabilities d with
  | Some table => List.map snd table
  | None => []
  end.

Definition probabilities_in_unit (d : diagnosis) : bool :=
  forallb in_unit (probability_values d).

(** ** Medication reminders *)

(** [datetime.time], the value of [st.time_input]: the class admits only
    [hour < 24] and [minute < 60]. *)
Record time_of_day := TimeOfDay { hour : N; minute : N }.

(** The two decimal digits of [%H] and of [%M]. *)
Definition two_digits (n : N) : str := [48 + n / 10; 48 + n mod 10].

(** [med_time.strftime("%H:%M")] *)
Definition strftime_HM (t : time_of_day) : str :=
  two_digits (hour t) ++ py ":" ++ two_digits (minute t).

Definition isdigit (c : N) : bool := (48 <=? c) && (c <=? 57).

(** A valid ["HH:MM"] string: two digits below 24, a colon, two digits
    below 60. *)
Definition valid_HHMM (t : str) : bool :=
  match t with
  | [h1; h2; c; m1; m2] =>
    isdigit h1 && isdigit h2 && (c =? 58) && isdigit m1 && isdigit m2
    && ((h1 - 48) * 10 + (h2 - 48) <? 24)
    && ((m1 - 48) * 10 + (m2 - 48) <? 60)
  | _ => false
  end.

(** The body of [if st.button("添加提醒")] in [medication_reminder]. *)
Definition add_reminder (new_med : str) (med_time : time_of_day) : M unit :=
  modify (fun s =>
    set_medications
      (medications s ++ [Medication new_med (strftime_HM med_time) Pending]) s).

(** [st.session_state.medications[idx]['status'] = 'done'], run when the
    check button of row [idx] is pressed; [idx] comes from [enumerate], a
    position past the end would raise [IndexError]. *)
Definition mark_done (idx : nat) : M unit :=
  s <- get ;;
  match medications s !! idx with
  | Some med =>
    modify (set_medications
      (<[idx := Medication (med_name med) (med_time med) Done]> (medications s)))
  | None => call (Raised IndexError)
  end.

(** The body of [if st.button("更新档案")] in [user_profile_section]. *)
Definition update_profile (new_name : str) (new_age : Z) (new_gender : str)
  : M unit :=
  modify (fun s =>
    set_user_profile
      (Profile new_name new_age new_gender (medical_history (user_profile s))) s).

(** ** Voice capture *)

(** [np.concatenate(arrays)] along axis 0 for two-dimensional arrays:
    [ValueError] on an empty list and when the row widths differ. *)
Definition same_width (arrays : list ndarray) : bool :=
  match arrays with
  | [] => true
  | a :: rest => forallb (fun b => Nat.eqb (ncols b) (ncols a)) rest
  end.

Definition np_concatenate (arrays : list ndarray) : result ndarray :=
  match arrays with
  | [] => Raised ValueError
  | a :: _ =>
    if same_width arrays
    then Returned (NdArray (ncols a) (concat (List.map arows arrays)))
    else Raised ValueError
  end.

(** [audio_callback]: the frame's samples are appended to the buffer. *)
Definition audio_callback (audio_data : ndarray) : M unit :=
  modify (fun s => set_audio_buffer (audio_buffer s ++ [audio_data]) s).

Section Voice.

Variable backend : str -> result response.

(** The recogniser the source calls and leaves to be connected: it yields
    a text, nothing ([None]), or raises. *)
Variable speech_to_text : ndarray -> result (option str).

(** [voice_input_component], the body of
    [if ctx.state.playing and st.button("结束录音")]; [submit_transcript]
    is its [if text: process_user_input(text)]. *)
Definition submit_transcript (now1 now2 : str) (text : option str) : M unit :=
  match text with
  | Some t => if truthy t then process_user_input backend now1 now2 t
              else ret tt
  | None => ret tt
  end.

Definition voice_input_component (now1 now2 : str) : M unit :=
  s <- get ;;
  audio_array <- call (np_concatenate (audio_buffer s)) ;;
  text <- call (speech_to_text audio_array) ;;
  submit_transcript now1 now2 text ;;
  modify (set_audio_buffer []).

(** [st.session_state.user_input = ""], the statement after the turn in
    the send handler.  [user_input] is the key of the text input that the
    run has drawn before the button (line 183), and Streamlit refuses to
    assign the key of a widget once it is drawn: the statement raises. *)
Definition clear_user_input : M unit := call (Raised StreamlitAPIException).

(** [chat_interface], the body of [if st.button("发送", ...)]. *)
Definition chat_interface (now1 now2 user_input : str) : M unit :=
  process_user_input backend now1 now2 user_input ;;
  clear_user_input.

(** ** A session: the events of the user interface *)

Inductive event :=
| SendText (now1 now2 text : str)
| AudioFrame (audio_data : ndarray)
| StopRecording (now1 now2 : str)
| AddReminder (new_med : str) (med_time : time_of_day)
| MarkDone (idx : nat)
| UpdateProfile (new_name : str) (new_age : Z) (new_gender : str).

Definition handle (e : event) : M unit :=
  match e with
  | SendText now1 now2 text => chat_interface now1 now2 text
  | AudioFrame audio_data => audio_callback audio_data
  | StopRecording now1 now2 => voice_input_component now1 now2
  | AddReminder new_med med_time => add_reminder new_med med_time
  | MarkDone idx => mark_done idx
  | UpdateProfile n a g => update_profile n a g
  end.

(** One event.  An exception that escapes is reported by Streamlit; the
    session state stays as the event left it, and [init_session_state]
    finds every key present on the next run (see [init_stored]). *)
Definition step (s : State) (e : event) : State := fst (handle e s).

(** The session state after the events [evs], from a fresh session. *)
Definition run (evs : list event) : State :=
  fold_left step evs (init_session_state empty_session).

(** [main], one script run for the interaction [e]: [init_session_state],
    then the components, of which the one whose button was pressed acts.
    The keys are passed on to the next run.  (An audio frame reaches
    [audio_callback] through the streamer that a run has set up; it is
    taken through the same path.) *)
Definition main (raw : raw_session) (e : event) : raw_session :=
  stored (step (init_session_state raw) e).

End Voice.

(** ** Read-only views and the rest of the interface *)

(** The response of an answered call: the backend returned and the
    response has an ['answer'] key. *)
Definition answered (backend : str -> result response) (text : str)
  : option (response * str) :=
  match backend text with
  | Returned r => match answer r with
                  | Some a => Some (r, a)
                  | None => None
                  end
  | Raised _ => None
  end.

Section Calls.

Variable backend : str -> result response.
Variable speech_to_text : ndarray -> result (option str).

(** The text with which an event calls the backend, if it gets to the
    call: for the send button the text typed, for the stop button the text
    the recogniser returns for the frames buffered at that moment; a blank
    text is not submitted.  The other events make no call. *)
Definition submitted_text (s : State) (e : event) : option str :=
  match e with
  | SendText _ _ text => if truthy (strip text) then Some text else None
  | StopRecording _ _ =>
    match np_concatenate (audio_buffer s) with
    | Returned arr =>
      match speech_to_text arr with
      | Returned (Some t) => if truthy (strip t) then Some t else None
      | _ => None
      end
    | Raised _ => None
    end
  | _ => None
  end.

(** The latest successful backend response among the calls the events
    [evs] make from the state [s] on; [latest] is the one of the calls made
    before.  A call is successful when it is answered. *)
Fixpoint latest_answer (evs : list event) (s : State)
  (latest : option response) : option response :=
  match evs with
  | [] => latest
  | e :: rest =>
    latest_answer rest (step backend speech_to_text s e)
      (match submitted_text s e with
       | Some t => match answered backend t with
                   | Some (r, _) => Some r
                   | None => latest
                   end
       | None => latest
       end)
  end.

(** The latest successful backend response of a session, [None] while no
    call has been answered. *)
Definition session_latest_answer (evs : list event) : option response :=
  latest_answer evs (init_session_state empty_session) None.

End Calls.

(** The text of the last user message of a log. *)
Definition last_user_text (log : list message) : option str :=
  fold_left (fun t m => match msg_type_of m with
                        | User => Some (msg_content m)
                        | System => t
                        end) log None.

(** [a == b] on strings. *)
Fixpoint str_eqb (a b : str) : bool :=
  match a, b with
  | [], [] => true
  | x :: a', y :: b' => (x =? y) && str_eqb a' b'
  | _, _ => false
  end.

(** The options of the gender select box of [user_profile_section] and
    its [index] argument,
    [0 if st.session_state.user_profile['gender'] == 'male' else 1]. *)
Definition gender_options : list str := [py "男"; py "女"].

Definition gender_index (s : State) : nat :=
  if str_eqb (gender (user_profile s)) (py "male") then 0%nat else 1%nat.

(** The text of the alert of [chat_interface]. *)
Definition alert_text (s : State) : option str :=
  match active_warning s with
  | Some w => Some (py "⚠️ 高危症状预警：" ++ w)
  | None => None
  end.

(** The columns of the data frame [render_symptom_network] plots. *)
Record scatter_frame := ScatterFrame {
  sf_source : list str;
  sf_target : list str;
  sf_value : list float
}.

(** [render_symptom_network]: the frame handed to [px.scatter], [None]
    when [data] is falsy and nothing is drawn.  A network dict has its
    keys, so it is truthy even without links. *)
Definition render_symptom_network (s : State) : option scatter_frame :=
  match symptom_network (diagnosis_data s) with
  | Some net =>
    Some (ScatterFrame (List.map source (links net))
                       (List.map target (links net))
                       (List.map value (links net)))
  | None => None
  end.

(** The columns of the data frame [render_diagnosis_report] plots. *)
Record bar_frame := BarFrame {
  bf_disease : list str;
  bf_probability : list float
}.

(** [render_diagnosis_report]: the frame handed to [px.bar], [None] when
    the table is missing or empty ([if data:] on a dict). *)
Definition render_diagnosis_report (s : State) : option bar_frame :=
  match probabilities (diagnosis_data s) with
  | Some (entry :: table) =>
    Some (BarFrame (List.map fst (entry :: table))
                   (List.map snd (entry :: table)))
  | _ => None
  end.

(** One row of the reminder list as [medication_reminder] draws it: the
    clock label, the name, and whether the rule under a done reminder is
    drawn. *)
Record reminder_row := ReminderRow {
  row_label : str;
  row_name : str;
  row_rule : bool
}.

Definition is_done (st : status) : bool :=
  match st with
  | Done => true
  | Pending => false
  end.

Definition clicked_here (clicked : option nat) (idx : nat) : bool :=
  match clicked with
  | Some c => Nat.eqb c idx
  | None => false
  end.

(** The body of [for idx, med in enumerate(st.session_state.medications)];
    [clicked] is the row whose check button was pressed in this run, if
    any.  [med] is the dict in the list, so the status test after the
    button sees the assignment. *)
Definition reminder_loop_body (clicked : option nat) (idx : nat)
  : M reminder_row :=
  s <- get ;;
  match medications s !! idx with
  | None => call (Raised IndexError)
  | Some med =>
    (if clicked_here clicked idx then mark_done idx else ret tt) ;;
    s' <- get ;;
    match medications s' !! idx with
    | None => call (Raised IndexError)
    | Some med' =>
      ret (ReminderRow (py "⏰ " ++ med_time med) (med_name med)
                       (is_done (med_status med')))
    end
  end.

Fixpoint reminder_loop (clicked : option nat) (idxs : list nat)
  : M (list reminder_row) :=
  match idxs with
  | [] => ret []
  | idx :: rest =>
    row <- reminder_loop_body clicked idx ;;
    rows <- reminder_loop clicked rest ;;
    ret (row :: rows)
  end.

(** [medication_reminder]: the add button, then the list.  [add_clicked]
    and [clicked] say which button, if any, was pressed in this run; the
    rows drawn are returned. *)
Definition medication_reminder (new_med : str) (med_time : time_of_day)
  (add_clicked : bool) (clicked : option nat) : M (list reminder_row) :=
  (if add_clicked then add_reminder new_med med_time else ret tt) ;;
  s <- get ;;
  reminder_loop clicked (seq 0 (length (medications s))).

(** What [mark_done] writes at a position. *)
Definition set_done (med : medication) : medication :=
  Medication (med_name med) (med_time med) Done.

(** The part of the session state an event is meant for: the chat (the
    conversation, the diagnosis data and the warning), the reminders, the
    profile, the audio buffer. *)
Definition writes_chat (e : event) : bool :=
  match e with
  | SendText _ _ _ | StopRecording _ _ => true
  | _ => false
  end.

Definition writes_reminders (e : event) : bool :=
  match e with
  | AddReminder _ _ | MarkDone _ => true
  | _ => false
  end.

Definition writes_profile (e : event) : bool :=
  match e with
  | UpdateProfile _ _ _ => true
  | _ => false
  end.

Definition writes_audio (e : event) : bool :=
  match e with
  | AudioFrame _ | StopRecording _ _ => true
  | _ => false
  end.

(** The last profile update among the events, if any. *)
Fixpoint last_profile_update (evs : list event) : option (str * Z * str) :=
  match evs with
  | [] => None
  | e :: rest =>
    match last_profile_update rest with
    | Some u => Some u
    | None => match e with
              | UpdateProfile n a g => Some (n, a, g)
              | _ => None
              end
    end
  end.

(** What [medication_reminder] draws for a reminder. *)
Definition drawn_row (med : medication) : reminder_row :=
  ReminderRow (py "⏰ " ++ med_time med) (med_name med)
              (is_done (med_status med)).

(** ** Sample inputs *)

(** A buffer of two frames of two samples each, and a recogniser that
    hears "头痛". *)
Definition two_frames : State :=
  set_audio_buffer [NdArray 2 [[1%Z; 2%Z]]; NdArray 2 [[3%Z; 4%Z]]]
    session_defaults.

Definition hears_headache (_ : ndarray) : result (option str) :=
  Returned (Some (py "头痛")).

(** A recogniser whose service cannot be reached. *)
Definition recogniser_down (_ : ndarray) : result (option str) :=
  Raised TimeoutError.

(** Backends other than the mock: one that times out, one whose table
    gives a probability of 1.5, one whose warning is the empty string, and
    one that times out on texts containing "咳嗽" and is the mock
    otherwise. *)
Definition timeout_backend (_ : str) : result response :=
  Raised TimeoutError.

Definition overconfident_backend (_ : str) : result response :=
  Returned {| answer := Some (py "ok");
              data := Some (Diagnosis None (Some [(py "感冒", 1.5%float)]));
              resp_warning := None |}.

Definition empty_warning_backend (_ : str) : result response :=
  Returned {| answer := Some (py "ok");
              data := None;
              resp_warning := Some (Some (py "")) |}.

Definition flaky_backend (text : str) : result response :=
  if contains (py "咳嗽") text then Raised TimeoutError
  else mock_backend text.

(** * Properties *)

(** ** Literals and string functions on samples *)

Example py_fever : py "发热" = [0x53D1; 0x70ED].
Proof. reflexivity. Qed.

Example py_ascii : py "08:00" = [48; 56; 58; 48; 48].
Proof. reflexivity. Qed.

Example strip_blank : strip (py "   ") = [] /\ strip (py " a b ") = py "a b".
Proof. split; reflexivity. Qed.

Example contains_fever :
  contains (py "发热") (py "头痛三天，伴有发热") = true
  /\ contains (py "发热") (py "轻微咳嗽") = false.
Proof. split; reflexivity. Qed.


(** ** Initialisation *)

Lemma init_fresh : init_session_state empty_session = session_defaults.
Proof. reflexivity. Qed.

(** Once the keys are set, running [init_session_state] again changes
    nothing. *)
Lemma init_stored (s : State) : init_session_state (stored s) = s.
Proof. destruct s; reflexivity. Qed.

(** ** Strings *)

Lemma lstrip_forallb (t : str) : lstrip t = [] <-> forallb isspace t = true.
Proof.
  induction t as [|c t IH]; simpl; [tauto|].
  destruct (isspace c); simpl; [exact IH|].
  split; discriminate.
Qed.

Lemma lstrip_head (t : str) c t' : lstrip t = c :: t' -> isspace c = false.
Proof.
  induction t as [|d t IH]; simpl; [discriminate|].
  destruct (isspace d) eqn:Hd; [exact IH|].
  intros [= <- _]. exact Hd.
Qed.

Lemma forallb_isspace_rev (t : str) :
  forallb isspace (rev t) = forallb isspace t.
Proof.
  induction t as [|c t IH]; simpl; [reflexivity|].
  rewrite forallb_app, IH. simpl. rewrite andb_true_r. apply andb_comm.
Qed.

(** The trimmed form is empty exactly when every character is white space. *)
Lemma strip_nil_iff (t : str) : strip t = [] <-> forallb isspace t = true.
Proof.
  unfold strip, rstrip. rewrite <- lstrip_forallb.
  destruct (lstrip t) as [|c t'] eqn:Ht; [simpl; tauto|].
  split; [|discriminate].
  intros H. apply (f_equal (@rev N)) in H. rewrite rev_involutive in H.
  change (rev []) with (@nil N) in H. apply lstrip_forallb in H.
  rewrite forallb_isspace_rev in H. simpl in H.
  apply lstrip_head in Ht. rewrite Ht in H. discriminate.
Qed.

Lemma truthy_false (t : str) : truthy t = false <-> t = [].
Proof. destruct t; simpl; split; congruence. Qed.

Lemma truthy_true (t : str) : truthy t = true <-> t <> [].
Proof. destruct t; simpl; split; congruence. Qed.

Lemma startswith_spec (p t : str) :
  startswith p t = true <-> exists post, t = p ++ post.
Proof.
  revert t. induction p as [|a p IH]; intros t; simpl.
  - split; [eauto|reflexivity].
  - destruct t as [|b t].
    + split; [discriminate|]. intros [post H]. discriminate.
    + rewrite andb_true_iff, N.eqb_eq, IH. split.
      * intros [-> [post ->]]. eauto.
      * intros [post [= -> ->]]. eauto.
Qed.

(** [needle in text] holds exactly when [needle] is a contiguous part of
    [text]. *)
Lemma contains_spec (needle text : str) :
  contains needle text = true <-> exists pre post, text = pre ++ needle ++ post.
Proof.
  induction text as [|c text IH].
  - simpl. rewrite orb_false_r, startswith_spec. split.
    + intros [post H]. exists [], post. exact H.
    + intros [pre [post H]]. destruct pre; [eauto|discriminate].
  - cbn [contains]. rewrite orb_true_iff, startswith_spec, IH. split.
    + intros [[post H]|[pre [post H]]].
      * exists [], post. exact H.
      * exists (c :: pre), post. rewrite H. reflexivity.
    + intros [[|d pre] [post H]].
      * left. eauto.
      * right. injection H as _ H. eauto.
Qed.

(** ** One conversation turn *)

Section TurnFacts.

Variable backend : str -> result response.
Variables now1 now2 text : str.
Variable s : State.

Lemma turn_blank :
  truthy (strip text) = false ->
  process_user_input backend now1 now2 text s = (s, Returned tt).
Proof. intros H. unfold process_user_input. rewrite H. reflexivity. Qed.

Lemma turn_answered r a :
  truthy (strip text) = true ->
  backend text = Returned r ->
  answer r = Some a ->
  process_user_input backend now1 now2 text s =
  ({| conversation :=
        conversation s ++ [Message User text now1; Message System a now2];
      user_profile := user_profile s;
      diagnosis_data := get_data r;
      medications := medications s;
      audio_buffer := audio_buffer s;
      warning := Some (get_warning r) |}, Returned tt).
Proof.
  intros H Hr Ha. unfold process_user_input. rewrite H.
  unfold bind, modify, call, getitem_answer. rewrite Hr, Ha. cbn.
  rewrite <- app_assoc. reflexivity.
Qed.

Lemma turn_backend_raises e :
  truthy (strip text) = true ->
  backend text = Raised e ->
  process_user_input backend now1 now2 text s =
  (set_conversation (conversation s ++ [Message User text now1]) s, Raised e).
Proof.
  intros H Hr. unfold process_user_input. rewrite H.
  unfold bind, modify, call. rewrite Hr. reflexivity.
Qed.

Lemma turn_answer_missing r :
  truthy (strip text) = true ->
  backend text = Returned r ->
  answer r = None ->
  process_user_input backend now1 now2 text s =
  (set_conversation (conversation s ++ [Message User text now1]) s,
   Raised KeyError).
Proof.
  intros H Hr Ha. unfold process_user_input. rewrite H.
  unfold bind, modify, call, getitem_answer. rewrite Hr, Ha. reflexivity.
Qed.

End TurnFacts.

(** The mock always answers, so a turn against it never raises. *)
Lemma mock_turn_returns now1 now2 text s :
  snd (process_user_input mock_backend now1 now2 text s) = Returned tt.
Proof.
  destruct (truthy (strip text)) eqn:H.
  - erewrite turn_answered; [reflexivity|exact H|reflexivity|reflexivity].
  - rewrite turn_blank by exact H. reflexivity.
Qed.

(** ** Claims about [process_user_input] *)

(** C1 (as amended).  An input whose trimmed form is empty is ignored:
    [process_user_input] returns normally, without signalling any error,
    and the session state, so the conversation log, the diagnosis data and
    the warning, is exactly what it was. *)
Theorem blank_input_is_ignored :
  forall (backend : str -> result response) (now1 now2 text : str) (s : State),
    strip text = [] ->
    process_user_input backend now1 now2 text s = (s, Returned tt).
Proof.
  intros backend now1 now2 text s H.
  apply turn_blank. apply truthy_false. exact H.
Qed.

Lemma blank_input_is_ignored_witness :
  strip (py "   ") = []
  /\ process_user_input mock_backend (py "09:30:00") (py "09:30:01")
       (py "   ") session_defaults
     = (session_defaults, Returned tt).
Proof.
  split; [reflexivity|].
  apply (blank_input_is_ignored mock_backend (py "09:30:00") (py "09:30:01")
           (py "   ") session_defaults).
  reflexivity.
Defined.

(** C1 (as stated) fails: on [""] and on ["   "] the call is not rejected
    with an error, it returns [None] like any other call. *)
Lemma blank_input_raises_nothing :
  snd (process_user_input mock_backend (py "09:30:00") (py "09:30:01")
         (py "") session_defaults) = Returned tt
  /\ snd (process_user_input mock_backend (py "09:30:00") (py "09:30:01")
            (py "   ") session_defaults) = Returned tt
  /\ ~ (exists e,
         snd (process_user_input mock_backend (py "09:30:00") (py "09:30:01")
                (py "   ") session_defaults) = Raised e).
Proof.
  split; [reflexivity|]. split; [reflexivity|].
  intros [e H]. discriminate H.
Qed.

(** C2.  A turn with a non-blank text that the backend answers appends
    exactly two messages, the user's text and then the system message whose
    content is the response's answer, and replaces the diagnosis data and
    the warning by those of the response, whatever they were before. *)
Theorem answered_turn_appends_two :
  forall (backend : str -> result response) (now1 now2 text : str) (s : State)
         (r : response) (a : str),
    strip text <> [] ->
    backend text = Returned r ->
    answer r = Some a ->
    exists s',
      process_user_input backend now1 now2 text s = (s', Returned tt)
      /\ conversation s'
         = conversation s ++ [Message User text now1; Message System a now2]
      /\ length (conversation s') = (length (conversation s) + 2)%nat
      /\ diagnosis_data s' = get_data r
      /\ warning s' = Some (get_warning r).
Proof.
  intros backend now1 now2 text s r a H Hr Ha.
  apply truthy_true in H.
  eexists. split; [apply (turn_answered _ _ _ _ _ r a H Hr Ha)|].
  cbn. rewrite length_app. cbn. auto.
Qed.

Lemma answered_turn_appends_two_witness :
  exists s',
    process_user_input mock_backend (py "09:30:00") (py "09:30:01")
      (py "头痛三天，伴有发热") session_defaults = (s', Returned tt)
    /\ conversation s'
       = conversation session_defaults
         ++ [Message User (py "头痛三天，伴有发热") (py "09:30:00");
             Message System
               (py "收到症状：头痛三天，伴有发热。请补充说明：疼痛程度如何？")
               (py "09:30:01")]
    /\ length (conversation s')
       = (length (conversation session_defaults) + 2)%nat
    /\ diagnosis_data s'
       = get_data (get_ai_response (py "头痛三天，伴有发热"))
    /\ warning s'
       = Some (get_warning (get_ai_response (py "头痛三天，伴有发热"))).
Proof.
  apply (answered_turn_appends_two mock_backend (py "09:30:00") (py "09:30:01")
           (py "头痛三天，伴有发热") session_defaults
           (get_ai_response (py "头痛三天，伴有发热"))).
  - intros H. vm_compute in H. discriminate H.
  - reflexivity.
  - vm_compute. reflexivity.
Defined.

(** C3 (as amended).  When the backend call fails, by raising or by a
    response without an answer ([KeyError]), the exception leaves
    [process_user_input]: nothing catches it and no system message is
    written.  The log has gained the user's message only, and the diagnosis
    data and the warning are as they were before the turn. *)
Theorem failed_turn_propagates :
  forall (backend : str -> result response) (now1 now2 text : str) (s : State)
         (e : exn),
    strip text <> [] ->
    (backend text = Raised e
     \/ exists r, backend text = Returned r /\ answer r = None /\ e = KeyError) ->
    exists s',
      process_user_input backend now1 now2 text s = (s', Raised e)
      /\ conversation s' = conversation s ++ [Message User text now1]
      /\ diagnosis_data s' = diagnosis_data s
      /\ warning s' = warning s.
Proof.
  intros backend now1 now2 text s e H Hfail.
  apply truthy_true in H.
  exists (set_conversation (conversation s ++ [Message User text now1]) s).
  split; [|auto].
  destruct Hfail as [Hr|[r [Hr [Ha ->]]]].
  - apply turn_backend_raises; assumption.
  - apply (turn_answer_missing _ _ _ _ _ r); assumption.
Qed.

Lemma failed_turn_propagates_witness :
  exists s',
    process_user_input timeout_backend
      (py "09:30:00") (py "09:30:01") (py "头痛") session_defaults
    = (s', Raised TimeoutError)
    /\ conversation s'
       = conversation session_defaults
         ++ [Message User (py "头痛") (py "09:30:00")]
    /\ diagnosis_data s' = diagnosis_data session_defaults
    /\ warning s' = warning session_defaults.
Proof.
  apply (failed_turn_propagates timeout_backend
           (py "09:30:00") (py "09:30:01") (py "头痛") session_defaults
           TimeoutError).
  - discriminate.
  - left. reflexivity.
Defined.

(** C3 (as stated) fails: with a backend that times out the turn ends in
    the raised [TimeoutError], and the log holds the user's message and no
    system message. *)
Lemma backend_timeout_escapes :
  process_user_input timeout_backend
    (py "09:30:00") (py "09:30:01") (py "头痛") session_defaults
  = (set_conversation [Message User (py "头痛") (py "09:30:00")]
       session_defaults,
     Raised TimeoutError).
Proof. reflexivity. Qed.

(** ** The mock backend *)

Lemma mock_probabilities_in_unit (text : str) :
  probabilities_in_unit (get_data (get_ai_response text)) = true.
Proof. reflexivity. Qed.

(** C10.  The mock's data section, the symptom network and the probability
    table, is the same for every input.  The answer is the input between
    two fixed texts, and the warning is a string exactly when the input
    contains "发热", the same string every time; otherwise it is [None]. *)
Theorem mock_depends_on_text_only_in_answer_and_warning :
  forall text1 text2 : str,
    data (get_ai_response text1) = data (get_ai_response text2)
    /\ answer (get_ai_response text1)
       = Some (py "收到症状：" ++ text1 ++ py "。请补充说明：疼痛程度如何？")
    /\ ((exists pre post, text1 = pre ++ py "发热" ++ post)
        <-> get_warning (get_ai_response text1) = Some (py "持续高热需立即就医"))
    /\ (~ (exists pre post, text1 = pre ++ py "发热" ++ post)
        <-> get_warning (get_ai_response text1) = None).
Proof.
  intros text1 text2.
  split; [reflexivity|]. split; [reflexivity|].
  rewrite <- contains_spec.
  unfold get_ai_response, get_warning; cbn [resp_warning].
  destruct (contains (py "发热") text1); split; split;
    congruence || discriminate || reflexivity.
Qed.

(** ** Claims about the stored diagnosis data and warning *)

(** C4 (as amended).  Whatever the response of an answered turn holds, in
    range or not, the turn returns normally and the diagnosis data is the
    data section of the response exactly as received (the empty dict if it
    has none): the probability values are stored unclamped, so the stored
    ones lie in [[0,1]] exactly when those of the response do. *)
Theorem stored_probabilities_are_unclamped :
  forall (backend : str -> result response) (now1 now2 text : str) (s : State)
         (r : response) (a : str),
    strip text <> [] ->
    backend text = Returned r ->
    answer r = Some a ->
    snd (process_user_input backend now1 now2 text s) = Returned tt
    /\ (data r = None ->
        diagnosis_data (fst (process_user_input backend now1 now2 text s))
        = empty_dict)
    /\ (forall d,
          data r = Some d ->
          diagnosis_data (fst (process_user_input backend now1 now2 text s))
          = d
          /\ probabilities_in_unit
               (diagnosis_data
                  (fst (process_user_input backend now1 now2 text s)))
             = probabilities_in_unit d
          /\ forall table,
               probabilities d = Some table ->
               probability_values
                 (diagnosis_data
                    (fst (process_user_input backend now1 now2 text s)))
               = List.map snd table).
Proof.
  intros backend now1 now2 text s r a H Hr Ha.
  apply truthy_true in H.
  rewrite (turn_answered _ _ _ _ _ r a H Hr Ha).
  cbn [fst snd diagnosis_data]. unfold get_data.
  split; [reflexivity|]. split.
  - intros ->. reflexivity.
  - intros d ->. split; [reflexivity|]. split; [reflexivity|].
    intros table Htable. unfold probability_values. rewrite Htable.
    reflexivity.
Qed.

Lemma stored_probabilities_witness :
  snd (process_user_input overconfident_backend (py "09:30:00")
         (py "09:30:01") (py "头痛") session_defaults) = Returned tt
  /\ (data (Response (Some (py "ok"))
              (Some (Diagnosis None (Some [(py "感冒", 1.5%float)]))) None)
      = None ->
      diagnosis_data
        (fst (process_user_input overconfident_backend (py "09:30:00")
                (py "09:30:01") (py "头痛") session_defaults))
      = empty_dict)
  /\ (forall d,
        data (Response (Some (py "ok"))
                (Some (Diagnosis None (Some [(py "感冒", 1.5%float)]))) None)
        = Some d ->
        diagnosis_data
          (fst (process_user_input overconfident_backend (py "09:30:00")
                  (py "09:30:01") (py "头痛") session_defaults))
        = d
        /\ probabilities_in_unit
             (diagnosis_data
                (fst (process_user_input overconfident_backend
                        (py "09:30:00") (py "09:30:01") (py "头痛")
                        session_defaults)))
           = probabilities_in_unit d
        /\ forall table,
             probabilities d = Some table ->
             probability_values
               (diagnosis_data
                  (fst (process_user_input overconfident_backend
                          (py "09:30:00") (py "09:30:01") (py "头痛")
                          session_defaults)))
             = List.map snd table).
Proof.
  apply (stored_probabilities_are_unclamped overconfident_backend
           (py "09:30:00") (py "09:30:01") (py "头痛") session_defaults
           (Response (Some (py "ok"))
              (Some (Diagnosis None (Some [(py "感冒", 1.5%float)]))) None)
           (py "ok")).
  - intros H. vm_compute in H. discriminate H.
  - reflexivity.
  - reflexivity.
Defined.

(** C4 (as stated) fails: a response whose table gives 1.5 leaves 1.5 in
    the stored diagnosis data. *)
Lemma probability_above_one_is_stored :
  probability_values
    (diagnosis_data
       (fst (process_user_input
               overconfident_backend
               (py "09:30:00") (py "09:30:01") (py "头痛") session_defaults)))
  = [1.5%float]
  /\ in_unit 1.5%float = false.
Proof. split; reflexivity. Qed.

(** C5 (as amended).  A warning that is missing, [None] or the empty
    string is stored as [response.get('warning')] gives it: [None] in the
    first two cases, the empty string itself in the third.  No text stands
    for "no warning"; [chat_interface] shows no alert for either value. *)
Theorem silent_warning_is_stored_as_received :
  forall (backend : str -> result response) (now1 now2 text : str) (s : State)
         (r : response) (a : str),
    strip text <> [] ->
    backend text = Returned r ->
    answer r = Some a ->
    (resp_warning r = None \/ resp_warning r = Some None
     \/ resp_warning r = Some (Some [])) ->
    warning (fst (process_user_input backend now1 now2 text s))
    = Some (get_warning r)
    /\ (resp_warning r <> Some (Some []) ->
        warning (fst (process_user_input backend now1 now2 text s))
        = Some None)
    /\ (resp_warning r = Some (Some []) ->
        warning (fst (process_user_input backend now1 now2 text s))
        = Some (Some []))
    /\ active_warning (fst (process_user_input backend now1 now2 text s))
       = None.
Proof.
  intros backend now1 now2 text s r a H Hr Ha Hw.
  apply truthy_true in H.
  rewrite (turn_answered _ _ _ _ _ r a H Hr Ha).
  unfold active_warning, get_warning. cbn [fst warning].
  destruct Hw as [->|[->| ->]]; repeat split; congruence.
Qed.

Lemma silent_warning_witness :
  warning (fst (process_user_input mock_backend (py "09:30:00")
                  (py "09:30:01") (py "轻微咳嗽") session_defaults))
  = Some (get_warning (get_ai_response (py "轻微咳嗽")))
  /\ (resp_warning (get_ai_response (py "轻微咳嗽")) <> Some (Some []) ->
      warning (fst (process_user_input mock_backend (py "09:30:00")
                      (py "09:30:01") (py "轻微咳嗽") session_defaults))
      = Some None)
  /\ (resp_warning (get_ai_response (py "轻微咳嗽")) = Some (Some []) ->
      warning (fst (process_user_input mock_backend (py "09:30:00")
                      (py "09:30:01") (py "轻微咳嗽") session_defaults))
      = Some (Some []))
  /\ active_warning
       (fst (process_user_input mock_backend (py "09:30:00")
               (py "09:30:01") (py "轻微咳嗽") session_defaults))
     = None.
Proof.
  apply (silent_warning_is_stored_as_received mock_backend
           (py "09:30:00") (py "09:30:01") (py "轻微咳嗽") session_defaults
           (get_ai_response (py "轻微咳嗽"))
           (py "收到症状：轻微咳嗽。请补充说明：疼痛程度如何？")).
  - intros H. vm_compute in H. discriminate H.
  - reflexivity.
  - vm_compute. reflexivity.
  - right. left. vm_compute. reflexivity.
Defined.

(** C5 (as stated) fails: after "轻微咳嗽" against the mock the stored
    warning is [None], and an empty warning string is stored as the empty
    string; neither is the text "no active warning". *)
Lemma no_warning_text_is_stored :
  warning (fst (process_user_input mock_backend (py "09:30:00")
                  (py "09:30:01") (py "轻微咳嗽") session_defaults))
  = Some None
  /\ warning (fst (process_user_input empty_warning_backend
                     (py "09:30:00") (py "09:30:01") (py "轻微咳嗽")
                     session_defaults))
     = Some (Some (py ""))
  /\ Some (@None str) <> Some (Some (py "no active warning"))
  /\ Some (Some (py "")) <> Some (Some (py "no active warning")).
Proof.
  split; [vm_compute; reflexivity|]. split; [vm_compute; reflexivity|].
  split; [discriminate|].
  intros H. vm_compute in H. discriminate H.
Qed.

(** ** Medication reminders *)

Lemma two_digits_spec (n : N) :
  n < 100 ->
  exists d1 d2,
    two_digits n = [d1; d2] /\ isdigit d1 = true /\ isdigit d2 = true
    /\ (d1 - 48) * 10 + (d2 - 48) = n.
Proof.
  intros Hn. exists (48 + n / 10), (48 + n mod 10).
  assert (Hr : n mod 10 < 10) by (apply N.mod_lt; discriminate).
  assert (Hdm : n = 10 * (n / 10) + n mod 10)
    by (apply N.div_mod; discriminate).
  unfold isdigit, two_digits.
  set (q := n / 10) in *. set (r := n mod 10) in *. clearbody q r.
  repeat split.
  - apply andb_true_iff. split; apply N.leb_le; lia.
  - apply andb_true_iff. split; apply N.leb_le; lia.
  - lia.
Qed.

(** A time of day always prints as a valid ["HH:MM"]. *)
Lemma strftime_HM_valid (t : time_of_day) :
  hour t < 24 -> minute t < 60 -> valid_HHMM (strftime_HM t) = true.
Proof.
  intros Hh Hm. unfold strftime_HM.
  destruct (two_digits_spec (hour t)) as (h1 & h2 & -> & Hh1 & Hh2 & Hhv);
    [lia|].
  destruct (two_digits_spec (minute t)) as (m1 & m2 & -> & Hm1 & Hm2 & Hmv);
    [lia|].
  change (py ":") with [58]. cbn [app valid_HHMM].
  rewrite Hh1, Hh2, Hm1, Hm2, Hhv, Hmv, N.eqb_refl. cbn [andb].
  apply andb_true_iff. split; apply N.ltb_lt; assumption.
Qed.

(** C6 (as amended).  Adding a reminder never fails and checks nothing:
    whatever the name, the empty one too, it appends exactly one pending
    medication with that name; the time comes from a time-of-day value, so
    its text is always a valid ["HH:MM"]. *)
Theorem add_reminder_always_appends :
  forall (new_med : str) (med_time : time_of_day) (s : State),
    hour med_time < 24 ->
    minute med_time < 60 ->
    add_reminder new_med med_time s
    = (set_medications
         (medications s ++ [Medication new_med (strftime_HM med_time) Pending])
         s,
       Returned tt)
    /\ valid_HHMM (strftime_HM med_time) = true
    /\ length (medications (fst (add_reminder new_med med_time s)))
       = S (length (medications s)).
Proof.
  intros new_med med_time s Hh Hm.
  split; [reflexivity|]. split; [apply strftime_HM_valid; assumption|].
  cbn. rewrite length_app. cbn. lia.
Qed.

Lemma add_reminder_always_appends_witness :
  add_reminder (py "") (TimeOfDay 8 0) session_defaults
  = (set_medications
       (medications session_defaults
        ++ [Medication (py "") (strftime_HM (TimeOfDay 8 0)) Pending])
       session_defaults,
     Returned tt)
  /\ valid_HHMM (strftime_HM (TimeOfDay 8 0)) = true
  /\ length (medications (fst (add_reminder (py "") (TimeOfDay 8 0)
                                 session_defaults)))
     = S (length (medications session_defaults)).
Proof.
  apply (add_reminder_always_appends (py "") (TimeOfDay 8 0) session_defaults).
  - reflexivity.
  - reflexivity.
Defined.

(** C6 (as stated) fails: with the empty name and 08:00 the call returns
    normally and the list, empty before, holds one reminder. *)
Lemma empty_name_is_accepted :
  add_reminder (py "") (TimeOfDay 8 0) session_defaults
  = (set_medications [Medication (py "") (py "08:00") Pending]
       session_defaults,
     Returned tt)
  /\ length (medications session_defaults) = 0%nat
  /\ length (medications (fst (add_reminder (py "") (TimeOfDay 8 0)
                                 session_defaults))) = 1%nat.
Proof. repeat split. Qed.

(** C8.  Marking a reminder done at a valid index succeeds, and marking it
    again succeeds too and leaves the state exactly as the first call
    did. *)
Theorem mark_done_idempotent :
  forall (idx : nat) (s : State),
    (idx < length (medications s))%nat ->
    exists s',
      mark_done idx s = (s', Returned tt)
      /\ mark_done idx s' = (s', Returned tt).
Proof.
  intros idx s Hidx.
  destruct (lookup_lt_is_Some_2 (medications s) idx Hidx) as [med Hmed].
  unfold mark_done, bind, get, modify.
  rewrite Hmed. eexists. split; [reflexivity|].
  cbn [medications set_medications].
  rewrite list_lookup_insert_eq by exact Hidx.
  cbn [med_name med_time medications]. unfold set_medications.
  cbn [conversation user_profile diagnosis_data medications audio_buffer
       warning].
  rewrite list_insert_insert_eq. reflexivity.
Qed.

Lemma mark_done_idempotent_witness :
  exists s',
    mark_done 0
      (set_medications [Medication (py "阿司匹林") (py "08:00") Pending]
         session_defaults)
    = (s', Returned tt)
    /\ mark_done 0 s' = (s', Returned tt).
Proof.
  apply (mark_done_idempotent 0
           (set_medications [Medication (py "阿司匹林") (py "08:00") Pending]
              session_defaults)).
  cbn. lia.
Defined.

(** ** Voice capture *)

Section VoiceFacts.

Variable backend : str -> result response.
Variable speech_to_text : ndarray -> result (option str).
Variables now1 now2 : str.
Variable s : State.

Lemma np_concatenate_returns (arrays : list ndarray) :
  arrays <> [] ->
  same_width arrays = true ->
  exists arr,
    np_concatenate arrays = Returned arr
    /\ arows arr = concat (List.map arows arrays).
Proof.
  intros Hne Hw. destruct arrays as [|a rest]; [congruence|].
  unfold np_concatenate. rewrite Hw. eexists. split; reflexivity.
Qed.

Lemma voice_nothing_to_concatenate :
  np_concatenate (audio_buffer s) = Raised ValueError ->
  voice_input_component backend speech_to_text now1 now2 s
  = (s, Raised ValueError).
Proof.
  intros H. unfold voice_input_component, bind, get, call.
  rewrite H. reflexivity.
Qed.

Lemma voice_recogniser_raises arr e :
  np_concatenate (audio_buffer s) = Returned arr ->
  speech_to_text arr = Raised e ->
  voice_input_component backend speech_to_text now1 now2 s = (s, Raised e).
Proof.
  intros H He. unfold voice_input_component, bind, get, call.
  rewrite H, He. reflexivity.
Qed.

Lemma voice_transcribed arr text :
  np_concatenate (audio_buffer s) = Returned arr ->
  speech_to_text arr = Returned text ->
  voice_input_component backend speech_to_text now1 now2 s
  = match submit_transcript backend now1 now2 text s with
    | (s', Returned _) => (set_audio_buffer [] s', Returned tt)
    | (s', Raised e) => (s', Raised e)
    end.
Proof.
  intros H Ht. unfold voice_input_component, bind, get, call, modify.
  rewrite H, Ht. reflexivity.
Qed.

End VoiceFacts.

Lemma mock_transcript_returns now1 now2 text s :
  snd (submit_transcript mock_backend now1 now2 text s) = Returned tt.
Proof.
  unfold submit_transcript. destruct text as [t|]; [|reflexivity].
  destruct (truthy t); [apply mock_turn_returns|reflexivity].
Qed.

(** C7 (as amended).  With the mock backend, chunks of one row width and a
    recogniser that returns: pressing stop hands the recogniser the
    concatenation of all buffered chunks in order and, after the turn on
    the recognised text, leaves the buffer empty.  With no chunk at all
    [np.concatenate] raises [ValueError], the state is untouched and
    nothing is returned. *)
Theorem stop_recording_drains_buffer :
  forall (speech_to_text : ndarray -> result (option str))
         (now1 now2 : str) (s : State),
    same_width (audio_buffer s) = true ->
    (forall arr, np_concatenate (audio_buffer s) = Returned arr ->
                 exists text, speech_to_text arr = Returned text) ->
    (audio_buffer s = [] ->
     voice_input_component mock_backend speech_to_text now1 now2 s
     = (s, Raised ValueError))
    /\ (audio_buffer s <> [] ->
        exists arr text s',
          np_concatenate (audio_buffer s) = Returned arr
          /\ arows arr = concat (List.map arows (audio_buffer s))
          /\ speech_to_text arr = Returned text
          /\ voice_input_component mock_backend speech_to_text now1 now2 s
             = (s', Returned tt)
          /\ s' = set_audio_buffer []
                    (fst (submit_transcript mock_backend now1 now2 text s))
          /\ audio_buffer s' = []).
Proof.
  intros speech_to_text now1 now2 s Hw Hstt. split.
  - intros Hnil. apply voice_nothing_to_concatenate.
    rewrite Hnil. reflexivity.
  - intros Hne.
    destruct (np_concatenate_returns _ Hne Hw) as [arr [Harr Hrows]].
    destruct (Hstt arr Harr) as [text Htext].
    exists arr, text. eexists. repeat split; try eassumption.
    + rewrite (voice_transcribed _ _ _ _ _ arr text Harr Htext).
      pose proof (mock_transcript_returns now1 now2 text s) as Hret.
      destruct (submit_transcript mock_backend now1 now2 text s) as [s1 r1].
      cbn in Hret. subst r1. reflexivity.
Qed.

Lemma stop_recording_drains_buffer_witness :
  (audio_buffer two_frames = [] ->
   voice_input_component mock_backend hears_headache
     (py "09:30:00") (py "09:30:01") two_frames
   = (two_frames, Raised ValueError))
  /\ (audio_buffer two_frames <> [] ->
      exists arr text s',
        np_concatenate (audio_buffer two_frames) = Returned arr
        /\ arows arr = concat (List.map arows (audio_buffer two_frames))
        /\ hears_headache arr = Returned text
        /\ voice_input_component mock_backend hears_headache
             (py "09:30:00") (py "09:30:01") two_frames
           = (s', Returned tt)
        /\ s' = set_audio_buffer []
                  (fst (submit_transcript mock_backend
                          (py "09:30:00") (py "09:30:01") text two_frames))
        /\ audio_buffer s' = []).
Proof.
  apply (stop_recording_drains_buffer hears_headache
           (py "09:30:00") (py "09:30:01") two_frames).
  - reflexivity.
  - intros arr _. exists (Some (py "头痛")). reflexivity.
Defined.

(** C7 (as stated) fails.  Two buffered chunks of different row width make
    [np.concatenate] raise: nothing is returned and both chunks stay in the
    buffer.  A recogniser that raises leaves the buffer filled as well,
    since the buffer is cleared only after the recogniser and the turn. *)
Lemma collected_chunks_can_stay_buffered :
  voice_input_component mock_backend hears_headache
    (py "09:30:00") (py "09:30:01")
    (set_audio_buffer [NdArray 2 [[1%Z; 2%Z]]; NdArray 1 [[3%Z]]]
       session_defaults)
  = (set_audio_buffer [NdArray 2 [[1%Z; 2%Z]]; NdArray 1 [[3%Z]]]
       session_defaults,
     Raised ValueError)
  /\ voice_input_component mock_backend recogniser_down
       (py "09:30:00") (py "09:30:01") two_frames
     = (two_frames, Raised TimeoutError).
Proof. split; reflexivity. Qed.

(** ** Sample sessions *)

(** A session against [flaky_backend]: "头痛" is answered, the blank input
    is ignored, "咳嗽" times out.  The log has three messages and the
    diagnosis data is still that of the answer to "头痛". *)
Example flaky_session :
  let s := run flaky_backend hears_headache
             [SendText (py "09:30:00") (py "09:30:01") (py "头痛");
              SendText (py "09:31:00") (py "09:31:01") (py "  ");
              AddReminder (py "阿司匹林") (TimeOfDay 8 0);
              SendText (py "09:32:00") (py "09:32:01") (py "咳嗽")] in
  List.map msg_type_of (conversation s) = [User; System; User]
  /\ diagnosis_data s = get_data (get_ai_response (py "头痛"))
  /\ warning s = Some None
  /\ length (medications s) = 1%nat.
Proof. vm_compute. repeat split. Qed.

(** A voice turn: two frames, then stop; the recognised "头痛" is submitted
    and the buffer is empty afterwards. *)
Example voice_session :
  let s := run mock_backend hears_headache
             [AudioFrame (NdArray 2 [[1%Z; 2%Z]]);
              AudioFrame (NdArray 2 [[3%Z; 4%Z]]);
              StopRecording (py "09:30:00") (py "09:30:01")] in
  List.map msg_content (conversation s)
  = [py "头痛"; py "收到症状：头痛。请补充说明：疼痛程度如何？"]
  /\ audio_buffer s = [].
Proof. vm_compute. repeat split. Qed.

(** * Further properties of the code *)

(** ** The shape of one turn and of one event *)

Section Shapes.

Variable backend : str -> result response.
Variable speech_to_text : ndarray -> result (option str).

(** The send handler leaves the state of its turn; it ends in the
    exception of the turn, or else in that of the assignment after it. *)
Lemma send_state now1 now2 text s :
  fst (chat_interface backend now1 now2 text s)
  = fst (process_user_input backend now1 now2 text s).
Proof.
  unfold chat_interface, bind, clear_user_input, call.
  destruct (process_user_input backend now1 now2 text s) as [s' [[]|e]];
    reflexivity.
Qed.


(** The three ways a turn can go. *)
Lemma turn_cases now1 now2 text s :
  (strip text = []
   /\ process_user_input backend now1 now2 text s = (s, Returned tt))
  \/ (strip text <> []
      /\ exists r a,
           answered backend text = Some (r, a)
           /\ process_user_input backend now1 now2 text s
              = ({| conversation :=
                      conversation s
                      ++ [Message User text now1; Message System a now2];
                    user_profile := user_profile s;
                    diagnosis_data := get_data r;
                    medications := medications s;
                    audio_buffer := audio_buffer s;
                    warning := Some (get_warning r) |}, Returned tt))
  \/ (strip text <> []
      /\ answered backend text = None
      /\ exists e,
           process_user_input backend now1 now2 text s
           = (set_conversation (conversation s ++ [Message User text now1]) s,
              Raised e)).
Proof.
  unfold answered.
  destruct (truthy (strip text)) eqn:Ht.
  - pose proof (proj1 (truthy_true _) Ht) as Hne. right.
    destruct (backend text) as [r|e] eqn:Hr.
    + destruct (answer r) as [a|] eqn:Ha.
      * left. split; [exact Hne|]. exists r, a. split; [reflexivity|].
        apply (turn_answered _ _ _ _ _ r a Ht Hr Ha).
      * right. split; [exact Hne|]. split; [reflexivity|]. exists KeyError.
        apply (turn_answer_missing _ _ _ _ _ r Ht Hr Ha).
    + right. split; [exact Hne|]. split; [reflexivity|]. exists e.
      apply (turn_backend_raises _ _ _ _ _ e Ht Hr).
  - left. split; [apply truthy_false; exact Ht|].
    apply turn_blank. exact Ht.
Qed.

Lemma turn_keeps_rest now1 now2 text s :
  user_profile (fst (process_user_input backend now1 now2 text s))
  = user_profile s
  /\ medications (fst (process_user_input backend now1 now2 text s))
     = medications s
  /\ audio_buffer (fst (process_user_input backend now1 now2 text s))
     = audio_buffer s.
Proof.
  destruct (turn_cases now1 now2 text s)
    as [[_ ->]|[[_ (r & a & _ & ->)]|[_ [_ [e ->]]]]]; auto.
Qed.

Lemma transcript_cases now1 now2 text s :
  submit_transcript backend now1 now2 text s = (s, Returned tt)
  \/ exists t, text = Some t /\ t <> []
               /\ submit_transcript backend now1 now2 text s
                  = process_user_input backend now1 now2 t s.
Proof.
  unfold submit_transcript. destruct text as [t|]; [|left; reflexivity].
  destruct t as [|c t]; [left; reflexivity|].
  right. exists (c :: t). split; [reflexivity|]. split; [discriminate|].
  reflexivity.
Qed.

(** Pressing stop leaves the state as it was, or as a turn left it, with
    the audio buffer cleared when nothing was raised on the way. *)
Lemma voice_cases now1 now2 s :
  exists s1,
    (s1 = s \/ exists t, s1 = fst (process_user_input backend now1 now2 t s))
    /\ (fst (voice_input_component backend speech_to_text now1 now2 s) = s1
        \/ fst (voice_input_component backend speech_to_text now1 now2 s)
           = set_audio_buffer [] s1).
Proof.
  destruct (np_concatenate (audio_buffer s)) as [arr|e] eqn:Harr.
  - destruct (speech_to_text arr) as [text|e] eqn:Htext.
    + rewrite (voice_transcribed _ _ _ _ _ arr text Harr Htext).
      destruct (transcript_cases now1 now2 text s) as [->|(t & _ & _ & ->)].
      * exists s. split; [left; reflexivity|]. right. reflexivity.
      * exists (fst (process_user_input backend now1 now2 t s)).
        split; [right; exists t; reflexivity|].
        destruct (process_user_input backend now1 now2 t s) as [s' [[]|e]];
          [right|left]; reflexivity.
    + rewrite (voice_recogniser_raises _ _ _ _ _ arr e Harr Htext).
      exists s. split; [left; reflexivity|]. left. reflexivity.
  - exists s. split; [left; reflexivity|]. left.
    unfold voice_input_component, bind, get, call. rewrite Harr. reflexivity.
Qed.

Lemma mark_done_cases idx s :
  (exists med, medications s !! idx = Some med
               /\ mark_done idx s
                  = (set_medications (<[idx := set_done med]> (medications s)) s,
                     Returned tt))
  \/ (length (medications s) <= idx)%nat
     /\ mark_done idx s = (s, Raised IndexError).
Proof.
  unfold mark_done, bind, get, modify, call.
  destruct (medications s !! idx) as [med|] eqn:Hmed.
  - left. exists med. split; reflexivity.
  - right. split; [apply lookup_ge_None; exact Hmed|reflexivity].
Qed.

(** The conversation, the diagnosis data and the warning after an event
    are those before it, or those a turn leaves. *)
Lemma step_chat (s : State) (e : event) :
  exists s1,
    (s1 = s
     \/ exists now1 now2 t,
          s1 = fst (process_user_input backend now1 now2 t s))
    /\ conversation (step backend speech_to_text s e) = conversation s1
    /\ diagnosis_data (step backend speech_to_text s e) = diagnosis_data s1
    /\ warning (step backend speech_to_text s e) = warning s1.
Proof.
  unfold step. destruct e as [n1 n2 t|a|n1 n2|m tm|idx|n a g]; cbn [handle];
    rewrite ?send_state.
  - exists (fst (process_user_input backend n1 n2 t s)).
    split; [right; exists n1, n2, t; reflexivity|auto].
  - exists s. split; [left; reflexivity|auto].
  - destruct (voice_cases n1 n2 s) as [s1 [Hs1 [-> | ->]]];
      (exists s1; split;
       [destruct Hs1 as [->|[t ->]];
        [left; reflexivity|right; exists n1, n2, t; reflexivity]|auto]).
  - exists s. split; [left; reflexivity|auto].
  - exists s. split; [left; reflexivity|].
    destruct (mark_done_cases idx s) as [(med & _ & ->)|[_ ->]]; auto.
  - exists s. split; [left; reflexivity|auto].
Qed.

(** A property of the conversation, the diagnosis data and the warning
    that holds in a new session and that every turn keeps holds throughout
    every session. *)
Lemma chat_invariant
  (P : list message -> diagnosis -> option (option str) -> Prop) :
  P [] empty_dict None ->
  (forall s now1 now2 t,
     P (conversation s) (diagnosis_data s) (warning s) ->
     P (conversation (fst (process_user_input backend now1 now2 t s)))
       (diagnosis_data (fst (process_user_input backend now1 now2 t s)))
       (warning (fst (process_user_input backend now1 now2 t s)))) ->
  forall evs,
    P (conversation (run backend speech_to_text evs))
      (diagnosis_data (run backend speech_to_text evs))
      (warning (run backend speech_to_text evs)).
Proof.
  intros Hinit Hturn evs. unfold run.
  assert (Hstart : P (conversation (init_session_state empty_session))
                     (diagnosis_data (init_session_state empty_session))
                     (warning (init_session_state empty_session)))
    by exact Hinit.
  revert Hstart. generalize (init_session_state empty_session).
  induction evs as [|e evs IH]; intros s Hs; [exact Hs|].
  cbn [fold_left]. apply IH.
  destruct (step_chat s e) as (s1 & Hs1 & -> & -> & ->).
  destruct Hs1 as [->|(n1 & n2 & t & ->)]; [exact Hs|].
  apply Hturn. exact Hs.
Qed.

End Shapes.

(** ** The latest successful response of a session *)

Section LatestAnswer.

Variable backend : str -> result response.
Variable speech_to_text : ndarray -> result (option str).

Lemma strip_truthy (t : str) : truthy (strip t) = true -> truthy t = true.
Proof. destruct t; [discriminate|reflexivity]. Qed.

(** What a turn stores, by the text and the backend alone. *)
Lemma turn_chat now1 now2 t s :
  (diagnosis_data (fst (process_user_input backend now1 now2 t s)),
   warning (fst (process_user_input backend now1 now2 t s)))
  = match (if truthy (strip t) then answered backend t else None) with
    | Some (r, _) => (get_data r, Some (get_warning r))
    | None => (diagnosis_data s, warning s)
    end.
Proof.
  destruct (turn_cases backend now1 now2 t s)
    as [[Hnil ->]|[[Hne (r & a & Hans & ->)]|[Hne [Hans [e ->]]]]].
  - apply truthy_false in Hnil. rewrite Hnil. reflexivity.
  - apply truthy_true in Hne. rewrite Hne, Hans. reflexivity.
  - apply truthy_true in Hne. rewrite Hne, Hans. reflexivity.
Qed.

(** What an event stores, by the text it submits. *)
Lemma step_chat_data (s : State) (e : event) :
  (diagnosis_data (step backend speech_to_text s e),
   warning (step backend speech_to_text s e))
  = match submitted_text speech_to_text s e with
    | Some t => match answered backend t with
                | Some (r, _) => (get_data r, Some (get_warning r))
                | None => (diagnosis_data s, warning s)
                end
    | None => (diagnosis_data s, warning s)
    end.
Proof.
  unfold step. destruct e as [n1 n2 t|a|n1 n2|m tm|idx|n a g];
    cbn [handle submitted_text].
  - rewrite send_state, turn_chat. destruct (truthy (strip t)); reflexivity.
  - reflexivity.
  - destruct (np_concatenate (audio_buffer s)) as [arr|ex] eqn:Harr.
    + destruct (speech_to_text arr) as [text|ex] eqn:Htext.
      * rewrite (voice_transcribed _ _ _ _ _ arr text Harr Htext).
        unfold submit_transcript. destruct text as [t|]; [|reflexivity].
        destruct (truthy t) eqn:Ht.
        -- pose proof (turn_chat n1 n2 t s) as Hturn.
           assert (Hsame : match (if truthy (strip t)
                                  then answered backend t else None) with
                           | Some (r, _) => (get_data r, Some (get_warning r))
                           | None => (diagnosis_data s, warning s)
                           end
                           = match (if truthy (strip t) then Some t else None)
                             with
                             | Some t' =>
                               match answered backend t' with
                               | Some (r, _) =>
                                 (get_data r, Some (get_warning r))
                               | None => (diagnosis_data s, warning s)
                               end
                             | None => (diagnosis_data s, warning s)
                             end)
             by (destruct (truthy (strip t)); reflexivity).
           rewrite <- Hsame, <- Hturn.
           destruct (process_user_input backend n1 n2 t s) as [s' [[]|ex]];
             reflexivity.
        -- destruct (truthy (strip t)) eqn:Hs; [|reflexivity].
           apply strip_truthy in Hs. congruence.
      * rewrite (voice_recogniser_raises _ _ _ _ _ arr ex Harr Htext).
        reflexivity.
    + unfold voice_input_component, bind, get, call. rewrite Harr.
      reflexivity.
  - reflexivity.
  - destruct (mark_done_cases idx s) as [(med & _ & ->)|[_ ->]]; reflexivity.
  - reflexivity.
Qed.

Lemma fold_latest (evs : list event) (s : State) (latest : option response) :
  (diagnosis_data s, warning s)
  = match latest with
    | Some r => (get_data r, Some (get_warning r))
    | None => (empty_dict, None)
    end ->
  (diagnosis_data (fold_left (step backend speech_to_text) evs s),
   warning (fold_left (step backend speech_to_text) evs s))
  = match latest_answer backend speech_to_text evs s latest with
    | Some r => (get_data r, Some (get_warning r))
    | None => (empty_dict, None)
    end.
Proof.
  revert s latest. induction evs as [|e evs IH]; intros s latest Hs;
    [exact Hs|].
  cbn [fold_left latest_answer]. apply IH.
  rewrite step_chat_data.
  destruct (submitted_text speech_to_text s e) as [t|]; [|exact Hs].
  destruct (answered backend t) as [[r a]|]; [reflexivity|exact Hs].
Qed.

Lemma run_latest (evs : list event) :
  (diagnosis_data (run backend speech_to_text evs),
   warning (run backend speech_to_text evs))
  = match session_latest_answer backend speech_to_text evs with
    | Some r => (get_data r, Some (get_warning r))
    | None => (empty_dict, None)
    end.
Proof. apply fold_latest. reflexivity. Qed.

End LatestAnswer.

(** The calls of a session against [flaky_backend]: "头痛" is answered, the
    blank text is not submitted, "咳嗽" times out, and the spoken "头痛" is
    answered again; the latest successful response is that to "头痛". *)
Example flaky_latest_answer :
  session_latest_answer flaky_backend hears_headache
    [SendText (py "09:31:00") (py "09:31:01") (py "  ")] = None
  /\ session_latest_answer flaky_backend hears_headache
       [SendText (py "09:32:00") (py "09:32:01") (py "咳嗽")] = None
  /\ session_latest_answer flaky_backend hears_headache
       [SendText (py "09:30:00") (py "09:30:01") (py "头痛发热");
        SendText (py "09:32:00") (py "09:32:01") (py "咳嗽");
        AudioFrame (NdArray 2 [[1%Z; 2%Z]]);
        StopRecording (py "09:33:00") (py "09:33:01")]
     = Some (get_ai_response (py "头痛")).
Proof. vm_compute. repeat split. Qed.

(** C9.  After any sequence of interface events from a new session the
    diagnosis data is exactly the data section of the latest successful
    backend response among the calls the events made (the empty dict when
    that response has no data section): it is replaced whole, never merged.
    While no call has succeeded it is the empty dict. *)
Theorem diagnosis_data_is_latest_response :
  forall (backend : str -> result response)
         (speech_to_text : ndarray -> result (option str))
         (evs : list event),
    diagnosis_data (run backend speech_to_text evs)
    = match session_latest_answer backend speech_to_text evs with
      | Some r => match data r with
                  | Some d => d
                  | None => empty_dict
                  end
      | None => empty_dict
      end.
Proof.
  intros backend speech_to_text evs.
  pose proof (run_latest backend speech_to_text evs) as H.
  destruct (session_latest_answer backend speech_to_text evs) as [r|];
    injection H as Hd _; exact Hd.
Qed.

(** X5.  After any sequence of interface events the stored warning is the
    warning of the latest successful backend response among the calls the
    events made, [None] when that response has none, and the key is still
    unset while no call has succeeded: a warning is overwritten by each
    answered turn and survives the failed and the blank ones. *)
Theorem warning_is_latest_response :
  forall (backend : str -> result response)
         (speech_to_text : ndarray -> result (option str))
         (evs : list event),
    warning (run backend speech_to_text evs)
    = match session_latest_answer backend speech_to_text evs with
      | Some r => Some (match resp_warning r with
                        | Some w => w
                        | None => None
                        end)
      | None => None
      end.
Proof.
  intros backend speech_to_text evs.
  pose proof (run_latest backend speech_to_text evs) as H.
  destruct (session_latest_answer backend speech_to_text evs) as [r|];
    injection H as _ Hw; exact Hw.
Qed.

(** ** The conversation log over a session *)

Section Log.

Variable backend : str -> result response.
Variable speech_to_text : ndarray -> result (option str).

Lemma turn_extends_log now1 now2 text s :
  conversation s
    `prefix_of` conversation (fst (process_user_input backend now1 now2 text s)).
Proof.
  destruct (turn_cases backend now1 now2 text s)
    as [[_ ->]|[[_ (r & a & _ & ->)]|[_ [_ [e ->]]]]]; cbn.
  - reflexivity.
  - apply prefix_app_r. reflexivity.
  - apply prefix_app_r. reflexivity.
Qed.

Lemma fold_extends_log (evs : list event) (s : State) :
  conversation s
    `prefix_of` conversation (fold_left (step backend speech_to_text) evs s).
Proof.
  revert s. induction evs as [|e evs IH]; intros s; [reflexivity|].
  cbn [fold_left]. etransitivity; [|apply IH].
  destruct (step_chat backend speech_to_text s e) as (s1 & Hs1 & -> & _).
  destruct Hs1 as [->|(n1 & n2 & t & ->)]; [reflexivity|].
  apply turn_extends_log.
Qed.

Lemma last_user_text_snoc (log : list message) (m : message) :
  last_user_text (log ++ [m])
  = match msg_type_of m with
    | User => Some (msg_content m)
    | System => last_user_text log
    end.
Proof. unfold last_user_text. rewrite fold_left_app. reflexivity. Qed.

End Log.

(** X1.  A turn, whatever its outcome, touches only the conversation, the
    diagnosis data and the warning: the profile, the reminders and the
    audio buffer are as before. *)
Theorem turn_touches_only_the_chat :
  forall (backend : str -> result response) (now1 now2 text : str) (s : State),
    user_profile (fst (process_user_input backend now1 now2 text s))
    = user_profile s
    /\ medications (fst (process_user_input backend now1 now2 text s))
       = medications s
    /\ audio_buffer (fst (process_user_input backend now1 now2 text s))
       = audio_buffer s.
Proof. intros. apply turn_keeps_rest. Qed.

(** X2.  The conversation log only grows: whatever events follow, with
    turns that fail among them, the log so far stays a prefix of the
    log. *)
Theorem log_only_grows :
  forall (backend : str -> result response)
         (speech_to_text : ndarray -> result (option str))
         (evs1 evs2 : list event),
    conversation (run backend speech_to_text evs1)
      `prefix_of` conversation (run backend speech_to_text (evs1 ++ evs2)).
Proof.
  intros backend speech_to_text evs1 evs2.
  unfold run. rewrite fold_left_app. apply fold_extends_log.
Qed.

(** X3.  In every session a system message never opens the log: it stands
    right after a user message, and its content is the answer the backend
    gave to that message's text. *)
Theorem system_message_answers_previous :
  forall (backend : str -> result response)
         (speech_to_text : ndarray -> result (option str))
         (evs : list event) (i : nat) (m : message),
    conversation (run backend speech_to_text evs) !! i = Some m ->
    msg_type_of m = System ->
    exists j u r,
      i = S j
      /\ conversation (run backend speech_to_text evs) !! j = Some u
      /\ msg_type_of u = User
      /\ backend (msg_content u) = Returned r
      /\ answer r = Some (msg_content m).
Proof.
  intros backend speech_to_text evs.
  apply (chat_invariant backend speech_to_text
           (fun log _ _ =>
              forall i m, log !! i = Some m -> msg_type_of m = System ->
                exists j u r, i = S j /\ log !! j = Some u
                  /\ msg_type_of u = User
                  /\ backend (msg_content u) = Returned r
                  /\ answer r = Some (msg_content m))).
  - intros i m H. rewrite lookup_nil in H. discriminate.
  - intros s n1 n2 t IH i m.
    assert (Hold : forall tail, (i < length (conversation s))%nat ->
              (conversation s ++ tail) !! i = Some m ->
              msg_type_of m = System ->
              exists j u r, i = S j /\ (conversation s ++ tail) !! j = Some u
                /\ msg_type_of u = User
                /\ backend (msg_content u) = Returned r
                /\ answer r = Some (msg_content m)).
    { intros tail Hlt Hi Hm. rewrite lookup_app_l in Hi by exact Hlt.
      destruct (IH i m Hi Hm) as (j & u & r & -> & Hj & Hu & Hr & Ha).
      exists j, u, r. rewrite lookup_app_l by lia. auto. }
    destruct (turn_cases backend n1 n2 t s)
      as [[_ ->]|[[_ (r & a & Hans & ->)]|[_ [_ [e ->]]]]];
      cbn [fst conversation set_conversation].
    + apply IH.
    + intros Hi Hm.
      destruct (decide (i < length (conversation s))%nat) as [Hlt|Hge];
        [apply (Hold _ Hlt Hi Hm)|].
      rewrite lookup_app_r in Hi by lia.
      destruct (i - length (conversation s))%nat as [|[|k]] eqn:Hk;
        cbn in Hi.
      * injection Hi as <-. discriminate Hm.
      * injection Hi as <-.
        exists (length (conversation s)), (Message User t n1), r.
        split; [lia|]. split.
        { rewrite lookup_app_r by lia. rewrite Nat.sub_diag. reflexivity. }
        split; [reflexivity|].
        unfold answered in Hans. cbn [msg_content].
        destruct (backend t) as [r'|]; [|discriminate].
        destruct (answer r') as [a'|] eqn:Ha'; [|discriminate].
        injection Hans as -> ->. split; [reflexivity|exact Ha'].
      * discriminate Hi.
    + intros Hi Hm.
      destruct (decide (i < length (conversation s))%nat) as [Hlt|Hge];
        [apply (Hold _ Hlt Hi Hm)|].
      rewrite lookup_app_r in Hi by lia.
      destruct (i - length (conversation s))%nat as [|k]; cbn in Hi.
      * injection Hi as <-. discriminate Hm.
      * discriminate Hi.
Qed.

Lemma system_message_answers_previous_witness :
  exists j u r,
    1%nat = S j
    /\ conversation
         (run mock_backend hears_headache
            [SendText (py "09:30:00") (py "09:30:01") (py "头痛")]) !! j
       = Some u
    /\ msg_type_of u = User
    /\ mock_backend (msg_content u) = Returned r
    /\ answer r
       = Some (msg_content
                 (Message System
                    (py "收到症状：头痛。请补充说明：疼痛程度如何？")
                    (py "09:30:01"))).
Proof.
  apply (system_message_answers_previous mock_backend hears_headache
           [SendText (py "09:30:00") (py "09:30:01") (py "头痛")] 1%nat
           (Message System (py "收到症状：头痛。请补充说明：疼痛程度如何？")
              (py "09:30:01"))).
  - vm_compute. reflexivity.
  - reflexivity.
Defined.

Lemma not_blank_has_text (t : str) :
  strip t <> [] -> forallb isspace t = false.
Proof.
  intros H. destruct (forallb isspace t) eqn:Hall; [|reflexivity].
  apply strip_nil_iff in Hall. contradiction.
Qed.

(** X4.  Every user message of the log carries a text with at least one
    character that is not white space: blank input never reaches the
    log. *)
Theorem logged_user_text_is_not_blank :
  forall (backend : str -> result response)
         (speech_to_text : ndarray -> result (option str))
         (evs : list event) (m : message),
    In m (conversation (run backend speech_to_text evs)) ->
    msg_type_of m = User ->
    forallb isspace (msg_content m) = false.
Proof.
  intros backend speech_to_text evs.
  apply (chat_invariant backend speech_to_text
           (fun log _ _ =>
              forall m, In m log -> msg_type_of m = User ->
                        forallb isspace (msg_content m) = false)).
  - intros m [].
  - intros s n1 n2 t IH m.
    destruct (turn_cases backend n1 n2 t s)
      as [[_ ->]|[[Hne (r & a & _ & ->)]|[Hne [_ [e ->]]]]];
      cbn [fst conversation set_conversation].
    + apply IH.
    + intros Hin Hm. apply in_app_or in Hin.
      destruct Hin as [Hin|[<-|[<-|[]]]].
      * apply IH; assumption.
      * apply not_blank_has_text. exact Hne.
      * discriminate Hm.
    + intros Hin Hm. apply in_app_or in Hin.
      destruct Hin as [Hin|[<-|[]]].
      * apply IH; assumption.
      * apply not_blank_has_text. exact Hne.
Qed.

Lemma logged_user_text_is_not_blank_witness :
  forallb isspace
    (msg_content (Message User (py " 头痛 ") (py "09:30:00"))) = false.
Proof.
  apply (logged_user_text_is_not_blank mock_backend hears_headache
           [SendText (py "09:30:00") (py "09:30:01") (py " 头痛 ")]
           (Message User (py " 头痛 ") (py "09:30:00"))).
  - vm_compute. left. reflexivity.
  - reflexivity.
Defined.

Lemma mock_answers (text : str) :
  answered mock_backend text
  = Some (get_ai_response text,
          py "收到症状：" ++ text ++ py "。请补充说明：疼痛程度如何？").
Proof. reflexivity. Qed.

(** X6.  With the mock backend the alert follows the latest turn only: it
    is shown, with the fixed text, exactly when the last user message of
    the log contains "发热"; an earlier fever text no longer counts, and a
    new session shows none. *)
Theorem mock_alert_follows_last_turn :
  forall (speech_to_text : ndarray -> result (option str))
         (evs : list event),
    active_warning (run mock_backend speech_to_text evs)
    = match last_user_text
              (conversation (run mock_backend speech_to_text evs)) with
      | Some t => if contains (py "发热") t
                  then Some (py "持续高热需立即就医")
                  else None
      | None => None
      end
    /\ alert_text (run mock_backend speech_to_text evs)
       = match last_user_text
                 (conversation (run mock_backend speech_to_text evs)) with
         | Some t => if contains (py "发热") t
                     then Some (py "⚠️ 高危症状预警：持续高热需立即就医")
                     else None
         | None => None
         end.
Proof.
  intros speech_to_text evs.
  assert (H : warning (run mock_backend speech_to_text evs)
              = match last_user_text
                        (conversation (run mock_backend speech_to_text evs))
                with
                | Some t => Some (get_warning (get_ai_response t))
                | None => None
                end).
  { apply (chat_invariant mock_backend speech_to_text
             (fun log _ w =>
                w = match last_user_text log with
                    | Some t => Some (get_warning (get_ai_response t))
                    | None => None
                    end)).
    - reflexivity.
    - intros s n1 n2 t IH.
      destruct (turn_cases mock_backend n1 n2 t s)
        as [[_ ->]|[[_ (r & a & Hans & ->)]|[_ [Hans _]]]];
        cbn [fst conversation warning].
      + exact IH.
      + change [Message User t n1; Message System a n2]
          with ([Message User t n1] ++ [Message System a n2]).
        rewrite app_assoc, !last_user_text_snoc.
        cbn [msg_type_of msg_content].
        rewrite mock_answers in Hans. injection Hans as <- _. reflexivity.
      + rewrite mock_answers in Hans. discriminate Hans. }
  unfold alert_text, active_warning. rewrite H.
  destruct (last_user_text _) as [t|]; [|split; reflexivity].
  unfold get_ai_response, get_warning. cbn [resp_warning].
  destruct (contains (py "发热") t); split; vm_compute; reflexivity.
Qed.

(** X7.  With the mock backend every user message of the log is answered:
    it is followed at once by a system message whose content is the
    message's text between the two fixed texts of the mock. *)
Theorem mock_answers_every_user_message :
  forall (speech_to_text : ndarray -> result (option str))
         (evs : list event) (i : nat) (u : message),
    conversation (run mock_backend speech_to_text evs) !! i = Some u ->
    msg_type_of u = User ->
    exists a,
      conversation (run mock_backend speech_to_text evs) !! S i = Some a
      /\ msg_type_of a = System
      /\ msg_content a
         = py "收到症状：" ++ msg_content u
           ++ py "。请补充说明：疼痛程度如何？".
Proof.
  intros speech_to_text evs.
  apply (chat_invariant mock_backend speech_to_text
           (fun log _ _ =>
              forall i u, log !! i = Some u -> msg_type_of u = User ->
                exists a, log !! S i = Some a /\ msg_type_of a = System
                  /\ msg_content a
                     = py "收到症状：" ++ msg_content u
                       ++ py "。请补充说明：疼痛程度如何？")).
  - intros i u H. rewrite lookup_nil in H. discriminate.
  - intros s n1 n2 t IH i u.
    destruct (turn_cases mock_backend n1 n2 t s)
      as [[_ ->]|[[_ (r & a & Hans & ->)]|[_ [Hans _]]]];
      cbn [fst conversation].
    + apply IH.
    + intros Hi Hu.
      destruct (decide (i < length (conversation s))%nat) as [Hlt|Hge].
      * rewrite lookup_app_l in Hi by exact Hlt.
        destruct (IH i u Hi Hu) as (b & Hb & Hsys & Hcont).
        exists b. rewrite lookup_app_l by (apply lookup_lt_Some in Hb; lia).
        auto.
      * rewrite lookup_app_r in Hi by lia.
        destruct (i - length (conversation s))%nat as [|[|k]] eqn:Hk;
          cbn in Hi.
        -- injection Hi as <-. exists (Message System a n2).
           rewrite lookup_app_r by lia.
           replace (S i - length (conversation s))%nat with 1%nat by lia.
           split; [reflexivity|]. split; [reflexivity|].
           rewrite mock_answers in Hans. injection Hans as _ <-. reflexivity.
        -- injection Hi as <-. discriminate Hu.
        -- discriminate Hi.
    + rewrite mock_answers in Hans. discriminate Hans.
Qed.

Lemma mock_answers_every_user_message_witness :
  exists a,
    conversation
      (run mock_backend hears_headache
         [SendText (py "09:30:00") (py "09:30:01") (py "头痛")]) !! 1%nat
    = Some a
    /\ msg_type_of a = System
    /\ msg_content a
       = py "收到症状：" ++ msg_content (Message User (py "头痛") (py "09:30:00"))
         ++ py "。请补充说明：疼痛程度如何？".
Proof.
  apply (mock_answers_every_user_message hears_headache
           [SendText (py "09:30:00") (py "09:30:01") (py "头痛")] 0%nat
           (Message User (py "头痛") (py "09:30:00"))).
  - vm_compute. reflexivity.
  - reflexivity.
Defined.

(** X8.  A turn leaves the log as it is exactly when every character of
    the text is white space, the empty text included; any other text is
    logged, whether or not the backend answers. *)
Theorem turn_logs_unless_blank :
  forall (backend : str -> result response) (now1 now2 text : str) (s : State),
    conversation (fst (process_user_input backend now1 now2 text s))
    = conversation s
    <-> forallb isspace text = true.
Proof.
  intros backend now1 now2 text s. rewrite <- strip_nil_iff.
  destruct (turn_cases backend now1 now2 text s)
    as [[Hnil ->]|[[Hne (r & a & _ & ->)]|[Hne [_ [e ->]]]]];
    cbn [fst conversation set_conversation].
  - tauto.
  - split; [|contradiction]. intros H.
    apply (f_equal (@length message)) in H.
    rewrite length_app in H. cbn in H. lia.
  - split; [|contradiction]. intros H.
    apply (f_equal (@length message)) in H.
    rewrite length_app in H. cbn in H. lia.
Qed.

(** ** The reminder list over a session *)

Section Reminders.

Variable backend : str -> result response.
Variable speech_to_text : ndarray -> result (option str).

Lemma voice_keeps_reminders_and_profile now1 now2 s :
  medications (fst (voice_input_component backend speech_to_text now1 now2 s))
  = medications s
  /\ user_profile
       (fst (voice_input_component backend speech_to_text now1 now2 s))
     = user_profile s.
Proof.
  destruct (voice_cases backend speech_to_text now1 now2 s)
    as [s1 [Hs1 [-> | ->]]];
    (destruct Hs1 as [->|[t ->]];
     [auto|
      destruct (turn_keeps_rest backend now1 now2 t s) as (Hp & Hm & _);
      cbn; auto]).
Qed.

(** What an event can do to the reminder list: nothing, append one pending
    reminder, or set the status of one reminder to done. *)
Lemma step_medications (s : State) (e : event) :
  medications (step backend speech_to_text s e) = medications s
  \/ (exists med,
        med_status med = Pending
        /\ medications (step backend speech_to_text s e)
           = medications s ++ [med])
  \/ (exists idx med,
        medications s !! idx = Some med
        /\ medications (step backend speech_to_text s e)
           = <[idx := set_done med]> (medications s)).
Proof.
  unfold step. destruct e as [n1 n2 t|a|n1 n2|m tm|idx|n a g]; cbn [handle];
    rewrite ?send_state.
  - left. apply turn_keeps_rest.
  - left. reflexivity.
  - left. apply voice_keeps_reminders_and_profile.
  - right. left. eexists. split; [|reflexivity]. reflexivity.
  - destruct (mark_done_cases idx s) as [(med & Hmed & ->)|[_ ->]].
    + right. right. exists idx, med. split; [exact Hmed|reflexivity].
    + left. reflexivity.
  - left. reflexivity.
Qed.

Lemma step_keeps_reminder (s : State) (e : event) (i : nat) (m : medication) :
  medications s !! i = Some m ->
  exists m',
    medications (step backend speech_to_text s e) !! i = Some m'
    /\ med_name m' = med_name m
    /\ med_time m' = med_time m
    /\ (med_status m = Done -> med_status m' = Done).
Proof.
  intros Hi.
  destruct (step_medications s e)
    as [->|[(med & _ & ->)|(idx & med & Hidx & ->)]].
  - exists m. auto.
  - exists m. rewrite lookup_app_l by (apply lookup_lt_Some in Hi; exact Hi).
    auto.
  - destruct (decide (idx = i)) as [->|Hne].
    + exists (set_done med).
      rewrite list_lookup_insert_eq by (apply lookup_lt_Some in Hi; exact Hi).
      rewrite Hi in Hidx. injection Hidx as ->. auto.
    + exists m. rewrite list_lookup_insert_ne by exact Hne. auto.
Qed.

Lemma fold_keeps_reminder (evs : list event) (s : State) (i : nat)
  (m : medication) :
  medications s !! i = Some m ->
  exists m',
    medications (fold_left (step backend speech_to_text) evs s) !! i = Some m'
    /\ med_name m' = med_name m
    /\ med_time m' = med_time m
    /\ (med_status m = Done -> med_status m' = Done).
Proof.
  revert s m. induction evs as [|e evs IH]; intros s m Hi; [exists m; auto|].
  cbn [fold_left].
  destruct (step_keeps_reminder s e i m Hi) as (m1 & H1 & Hn1 & Ht1 & Hd1).
  destruct (IH _ m1 H1) as (m' & H' & Hn & Ht & Hd).
  exists m'. split; [exact H'|]. split; [congruence|]. split; [congruence|].
  auto.
Qed.

End Reminders.

(** X9.  A reminder, once in the list, stays at its position with its name
    and time whatever events follow, and once it is done it stays done:
    nothing removes, reorders, renames or reopens a reminder. *)
Theorem reminders_persist :
  forall (backend : str -> result response)
         (speech_to_text : ndarray -> result (option str))
         (evs1 evs2 : list event) (i : nat) (m : medication),
    medications (run backend speech_to_text evs1) !! i = Some m ->
    exists m',
      medications (run backend speech_to_text (evs1 ++ evs2)) !! i = Some m'
      /\ med_name m' = med_name m
      /\ med_time m' = med_time m
      /\ (med_status m = Done -> med_status m' = Done).
Proof.
  intros backend speech_to_text evs1 evs2 i m Hi.
  unfold run. rewrite fold_left_app. apply fold_keeps_reminder. exact Hi.
Qed.

Lemma reminders_persist_witness :
  exists m',
    medications
      (run mock_backend hears_headache
         ([AddReminder (py "阿司匹林") (TimeOfDay 8 0); MarkDone 0]
          ++ [AddReminder (py "布洛芬") (TimeOfDay 20 30);
              SendText (py "09:30:00") (py "09:30:01") (py "头痛");
              MarkDone 0])) !! 0%nat
    = Some m'
    /\ med_name m' = med_name (Medication (py "阿司匹林") (py "08:00") Done)
    /\ med_time m' = med_time (Medication (py "阿司匹林") (py "08:00") Done)
    /\ (med_status (Medication (py "阿司匹林") (py "08:00") Done) = Done ->
        med_status m' = Done).
Proof.
  apply (reminders_persist mock_backend hears_headache
           [AddReminder (py "阿司匹林") (TimeOfDay 8 0); MarkDone 0]
           [AddReminder (py "布洛芬") (TimeOfDay 20 30);
            SendText (py "09:30:00") (py "09:30:01") (py "头痛");
            MarkDone 0]
           0%nat (Medication (py "阿司匹林") (py "08:00") Done)).
  vm_compute. reflexivity.
Defined.

(** X10.  Checking the reminder at a position of the list sets the status
    of that reminder and nothing else: its name and time, every other
    reminder, the length of the list and the rest of the session state are
    unchanged. *)
Theorem mark_done_changes_one_status :
  forall (idx : nat) (s : State) (med : medication),
    medications s !! idx = Some med ->
    exists s',
      mark_done idx s = (s', Returned tt)
      /\ medications s' !! idx
         = Some (Medication (med_name med) (med_time med) Done)
      /\ (forall j, j <> idx -> medications s' !! j = medications s !! j)
      /\ length (medications s') = length (medications s)
      /\ s' = set_medications (medications s') s.
Proof.
  intros idx s med Hmed.
  destruct (mark_done_cases idx s) as [(med' & Hmed' & ->)|[Hge _]].
  - rewrite Hmed in Hmed'. injection Hmed' as <-.
    eexists. split; [reflexivity|]. cbn [medications set_medications].
    split; [apply list_lookup_insert_eq; apply lookup_lt_Some in Hmed;
            exact Hmed|].
    split; [intros j Hj; apply list_lookup_insert_ne; congruence|].
    split; [apply length_insert|reflexivity].
  - apply lookup_lt_Some in Hmed. lia.
Qed.

Lemma mark_done_changes_one_status_witness :
  exists s',
    mark_done 1
      (set_medications [Medication (py "阿司匹林") (py "08:00") Pending;
                        Medication (py "布洛芬") (py "20:30") Pending]
         session_defaults)
    = (s', Returned tt)
    /\ medications s' !! 1%nat
       = Some (Medication
                 (med_name (Medication (py "布洛芬") (py "20:30") Pending))
                 (med_time (Medication (py "布洛芬") (py "20:30") Pending))
                 Done)
    /\ (forall j, j <> 1%nat ->
          medications s' !! j
          = medications
              (set_medications [Medication (py "阿司匹林") (py "08:00") Pending;
                                Medication (py "布洛芬") (py "20:30") Pending]
                 session_defaults) !! j)
    /\ length (medications s')
       = length
           (medications
              (set_medications [Medication (py "阿司匹林") (py "08:00") Pending;
                                Medication (py "布洛芬") (py "20:30") Pending]
                 session_defaults))
    /\ s' = set_medications (medications s')
              (set_medications [Medication (py "阿司匹林") (py "08:00") Pending;
                                Medication (py "布洛芬") (py "20:30") Pending]
                 session_defaults).
Proof.
  apply (mark_done_changes_one_status 1
           (set_medications [Medication (py "阿司匹林") (py "08:00") Pending;
                             Medication (py "布洛芬") (py "20:30") Pending]
              session_defaults)
           (Medication (py "布洛芬") (py "20:30") Pending)).
  reflexivity.
Defined.

(** ** Which event writes what, and which can fail *)

(** X11.  Every event writes only the part of the session state it is
    meant for: a reminder, profile or audio event leaves the conversation,
    the diagnosis data and the warning alone; only the two reminder buttons
    change the reminders; only the profile button changes the profile;
    only an audio frame or the stop button changes the audio buffer. *)
Theorem events_write_their_own_part :
  forall (backend : str -> result response)
         (speech_to_text : ndarray -> result (option str))
         (s : State) (e : event),
    (writes_chat e = false ->
     conversation (step backend speech_to_text s e) = conversation s
     /\ diagnosis_data (step backend speech_to_text s e) = diagnosis_data s
     /\ warning (step backend speech_to_text s e) = warning s)
    /\ (writes_reminders e = false ->
        medications (step backend speech_to_text s e) = medications s)
    /\ (writes_profile e = false ->
        user_profile (step backend speech_to_text s e) = user_profile s)
    /\ (writes_audio e = false ->
        audio_buffer (step backend speech_to_text s e) = audio_buffer s).
Proof.
  intros backend speech_to_text s e. unfold step.
  destruct e as [n1 n2 t|a|n1 n2|m tm|idx|n a g]; cbn [handle];
    rewrite ?send_state.
  - destruct (turn_keeps_rest backend n1 n2 t s) as (Hp & Hm & Ha).
    repeat split; intros; (discriminate || assumption).
  - repeat split; intros; (discriminate || reflexivity).
  - destruct (voice_keeps_reminders_and_profile backend speech_to_text
                n1 n2 s) as [Hm Hp].
    repeat split; intros; (discriminate || assumption).
  - repeat split; intros; (discriminate || reflexivity).
  - destruct (mark_done_cases idx s) as [(med & _ & ->)|[_ ->]];
      repeat split; intros; (discriminate || reflexivity).
  - repeat split; intros; (discriminate || reflexivity).
Qed.

Lemma events_write_their_own_part_witness :
  (writes_chat (MarkDone 0) = false ->
   conversation (step mock_backend hears_headache two_frames (MarkDone 0))
   = conversation two_frames
   /\ diagnosis_data (step mock_backend hears_headache two_frames (MarkDone 0))
      = diagnosis_data two_frames
   /\ warning (step mock_backend hears_headache two_frames (MarkDone 0))
      = warning two_frames)
  /\ (writes_reminders (MarkDone 0) = false ->
      medications (step mock_backend hears_headache two_frames (MarkDone 0))
      = medications two_frames)
  /\ (writes_profile (MarkDone 0) = false ->
      user_profile (step mock_backend hears_headache two_frames (MarkDone 0))
      = user_profile two_frames)
  /\ (writes_audio (MarkDone 0) = false ->
      audio_buffer (step mock_backend hears_headache two_frames (MarkDone 0))
      = audio_buffer two_frames).
Proof.
  apply (events_write_their_own_part mock_backend hears_headache two_frames
           (MarkDone 0)).
Defined.



(** A press of send in a new session: the turn is carried out, then the
    assignment raises. *)
Example send_raises_after_the_turn :
  handle mock_backend hears_headache
    (SendText (py "09:30:00") (py "09:30:01") (py "头痛")) session_defaults
  = (fst (process_user_input mock_backend (py "09:30:00") (py "09:30:01")
            (py "头痛") session_defaults),
     Raised StreamlitAPIException)
  /\ length (conversation
               (fst (handle mock_backend hears_headache
                       (SendText (py "09:30:00") (py "09:30:01") (py "头痛"))
                       session_defaults))) = 2%nat.
Proof. vm_compute. split; reflexivity. Qed.

(** ** Recording *)

Lemma set_audio_buffer_same (s : State) :
  set_audio_buffer (audio_buffer s) s = s.
Proof. destruct s; reflexivity. Qed.

Lemma turn_ignores_audio_buffer backend now1 now2 text v s :
  process_user_input backend now1 now2 text (set_audio_buffer v s)
  = (set_audio_buffer v (fst (process_user_input backend now1 now2 text s)),
     snd (process_user_input backend now1 now2 text s)).
Proof.
  unfold process_user_input.
  destruct (truthy (strip text)); [|reflexivity].
  unfold bind, modify, call, getitem_answer.
  destruct (backend text) as [r|e]; [|reflexivity].
  destruct (answer r); reflexivity.
Qed.

Lemma transcript_ignores_audio_buffer backend now1 now2 text v s :
  submit_transcript backend now1 now2 text (set_audio_buffer v s)
  = (set_audio_buffer v (fst (submit_transcript backend now1 now2 text s)),
     snd (submit_transcript backend now1 now2 text s)).
Proof.
  unfold submit_transcript. destruct text as [t|]; [|reflexivity].
  destruct (truthy t); [apply turn_ignores_audio_buffer|reflexivity].
Qed.

Lemma transcript_keeps_audio_buffer backend now1 now2 text s :
  audio_buffer (fst (submit_transcript backend now1 now2 text s))
  = audio_buffer s.
Proof.
  destruct (transcript_cases backend now1 now2 text s)
    as [->|(t & _ & _ & ->)]; [reflexivity|].
  apply turn_keeps_rest.
Qed.

Lemma frames_accumulate backend speech_to_text (chunks : list ndarray)
  (s : State) :
  fold_left (step backend speech_to_text) (List.map AudioFrame chunks) s
  = set_audio_buffer (audio_buffer s ++ chunks) s.
Proof.
  revert s. induction chunks as [|c chunks IH]; intros s.
  - cbn. rewrite app_nil_r. symmetry. apply set_audio_buffer_same.
  - cbn [List.map fold_left]. rewrite IH. unfold step. cbn.
    rewrite <- app_assoc. reflexivity.
Qed.

(** X13.  Audio frames pile up in the buffer in the order they arrive and
    touch nothing else. *)
Theorem frames_are_buffered_in_order :
  forall (backend : str -> result response)
         (speech_to_text : ndarray -> result (option str))
         (chunks : list ndarray) (s : State),
    fold_left (step backend speech_to_text) (List.map AudioFrame chunks) s
    = set_audio_buffer (audio_buffer s ++ chunks) s.
Proof. intros. apply frames_accumulate. Qed.

(** X14.  With the mock backend, recording frames of one width into an
    empty buffer and pressing stop does to the session exactly what
    sending the recognised text does, and the buffer is empty again: the
    recogniser gets the frames' rows in order. *)
Theorem speaking_is_sending :
  forall (speech_to_text : ndarray -> result (option str))
         (now1 now2 : str) (s : State) (c : ndarray) (rest : list ndarray)
         (text : option str),
    audio_buffer s = [] ->
    same_width (c :: rest) = true ->
    speech_to_text (NdArray (ncols c) (concat (List.map arows (c :: rest))))
    = Returned text ->
    step mock_backend speech_to_text
      (fold_left (step mock_backend speech_to_text)
         (List.map AudioFrame (c :: rest)) s)
      (StopRecording now1 now2)
    = fst (submit_transcript mock_backend now1 now2 text s).
Proof.
  intros speech_to_text now1 now2 s c rest text Hbuf Hw Htext.
  rewrite frames_accumulate, Hbuf. cbn [app].
  unfold step. cbn [handle].
  rewrite (voice_transcribed _ _ _ _ _
             (NdArray (ncols c) (concat (List.map arows (c :: rest)))) text).
  - rewrite transcript_ignores_audio_buffer.
    rewrite mock_transcript_returns. cbn [fst].
    pose proof (transcript_keeps_audio_buffer mock_backend now1 now2 text s)
      as Hkeep.
    rewrite Hbuf in Hkeep.
    destruct (fst (submit_transcript mock_backend now1 now2 text s)).
    cbn in Hkeep. subst. reflexivity.
  - cbn [audio_buffer set_audio_buffer]. unfold np_concatenate.
    rewrite Hw. reflexivity.
  - exact Htext.
Qed.

Lemma speaking_is_sending_witness :
  step mock_backend hears_headache
    (fold_left (step mock_backend hears_headache)
       (List.map AudioFrame
          (NdArray 2 [[1%Z; 2%Z]] :: [NdArray 2 [[3%Z; 4%Z]]]))
       session_defaults)
    (StopRecording (py "09:30:00") (py "09:30:01"))
  = fst (submit_transcript mock_backend (py "09:30:00") (py "09:30:01")
           (Some (py "头痛")) session_defaults).
Proof.
  apply (speaking_is_sending hears_headache (py "09:30:00") (py "09:30:01")
           session_defaults (NdArray 2 [[1%Z; 2%Z]])
           [NdArray 2 [[3%Z; 4%Z]]] (Some (py "头痛"))).
  - reflexivity.
  - reflexivity.
  - reflexivity.
Defined.

(** X15.  When the recogniser hears nothing ([None], the empty text, or
    white space only), pressing stop submits no turn: the recording is
    dropped and the rest of the session state is untouched. *)
Theorem silence_only_clears_the_buffer :
  forall (backend : str -> result response)
         (speech_to_text : ndarray -> result (option str))
         (now1 now2 : str) (s : State) (arr : ndarray) (text : option str),
    np_concatenate (audio_buffer s) = Returned arr ->
    speech_to_text arr = Returned text ->
    (text = None \/ exists t, text = Some t /\ forallb isspace t = true) ->
    voice_input_component backend speech_to_text now1 now2 s
    = (set_audio_buffer [] s, Returned tt).
Proof.
  intros backend speech_to_text now1 now2 s arr text Harr Htext Hsilent.
  rewrite (voice_transcribed _ _ _ _ _ arr text Harr Htext).
  destruct Hsilent as [->|(t & -> & Hblank)]; [reflexivity|].
  unfold submit_transcript.
  destruct (truthy t); [|reflexivity].
  rewrite turn_blank; [reflexivity|].
  apply truthy_false, strip_nil_iff. exact Hblank.
Qed.

Lemma silence_only_clears_the_buffer_witness :
  voice_input_component mock_backend (fun _ => Returned (Some (py "  ")))
    (py "09:30:00") (py "09:30:01") two_frames
  = (set_audio_buffer [] two_frames, Returned tt).
Proof.
  apply (silence_only_clears_the_buffer mock_backend
           (fun _ => Returned (Some (py "  ")))
           (py "09:30:00") (py "09:30:01") two_frames
           (NdArray 2 [[1%Z; 2%Z]; [3%Z; 4%Z]]) (Some (py "  "))).
  - reflexivity.
  - reflexivity.
  - right. exists (py "  "). split; reflexivity.
Defined.

(** X16.  When the backend fails on a recognised text, pressing stop ends
    in the exception with the user's message logged and the recording
    still in the buffer: the buffer is cleared only after a turn that
    returns. *)
Theorem failed_voice_turn_keeps_recording :
  forall (backend : str -> result response)
         (speech_to_text : ndarray -> result (option str))
         (now1 now2 : str) (s : State) (arr : ndarray) (t : str),
    np_concatenate (audio_buffer s) = Returned arr ->
    speech_to_text arr = Returned (Some t) ->
    strip t <> [] ->
    answered backend t = None ->
    exists e,
      voice_input_component backend speech_to_text now1 now2 s
      = (set_conversation (conversation s ++ [Message User t now1]) s,
         Raised e)
      /\ audio_buffer
           (fst (voice_input_component backend speech_to_text now1 now2 s))
         = audio_buffer s.
Proof.
  intros backend speech_to_text now1 now2 s arr t Harr Htext Hne Hans.
  rewrite (voice_transcribed _ _ _ _ _ arr (Some t) Harr Htext).
  unfold submit_transcript.
  assert (Ht : truthy t = true).
  { destruct t; [|reflexivity]. exfalso. apply Hne. reflexivity. }
  rewrite Ht.
  destruct (turn_cases backend now1 now2 t s)
    as [[Hnil _]|[[_ (r & a & Hans' & _)]|[_ [_ [e ->]]]]].
  - contradiction.
  - rewrite Hans in Hans'. discriminate.
  - exists e. split; reflexivity.
Qed.

Lemma failed_voice_turn_keeps_recording_witness :
  exists e,
    voice_input_component timeout_backend hears_headache
      (py "09:30:00") (py "09:30:01") two_frames
    = (set_conversation
         (conversation two_frames ++ [Message User (py "头痛") (py "09:30:00")])
         two_frames,
       Raised e)
    /\ audio_buffer
         (fst (voice_input_component timeout_backend hears_headache
                 (py "09:30:00") (py "09:30:01") two_frames))
       = audio_buffer two_frames.
Proof.
  apply (failed_voice_turn_keeps_recording timeout_backend hears_headache
           (py "09:30:00") (py "09:30:01") two_frames
           (NdArray 2 [[1%Z; 2%Z]; [3%Z; 4%Z]]) (py "头痛")).
  - reflexivity.
  - reflexivity.
  - intros H. vm_compute in H. discriminate H.
  - reflexivity.
Defined.

(** ** The reminder panel *)

Lemma mark_done_again idx s :
  fst (mark_done idx (fst (mark_done idx s))) = fst (mark_done idx s).
Proof.
  destruct (mark_done_cases idx s) as [(med & Hmed & ->)|[Hge ->]];
    cbn [fst].
  - unfold mark_done, bind, get, modify. cbn [medications set_medications].
    rewrite list_lookup_insert_eq by (apply lookup_lt_Some in Hmed; exact Hmed).
    cbn. rewrite list_insert_insert_eq. reflexivity.
  - destruct (mark_done_cases idx s) as [(med & Hmed & _)|[_ ->]];
      [|reflexivity].
    apply lookup_lt_Some in Hmed. lia.
Qed.

Lemma mark_done_length idx s :
  length (medications (fst (mark_done idx s))) = length (medications s).
Proof.
  destruct (mark_done_cases idx s) as [(med & _ & ->)|[_ ->]]; cbn;
    [apply length_insert|reflexivity].
Qed.

Lemma mark_done_elsewhere idx j s :
  j <> idx ->
  medications (fst (mark_done idx s)) !! j = medications s !! j.
Proof.
  intros Hne.
  destruct (mark_done_cases idx s) as [(med & _ & ->)|[_ ->]]; cbn;
    [apply list_lookup_insert_ne; congruence|reflexivity].
Qed.

(** One pass of the loop body at a position of the list. *)
Lemma loop_body_at clicked idx s med :
  medications s !! idx = Some med ->
  exists med1,
    reminder_loop_body clicked idx s
    = (if clicked_here clicked idx then fst (mark_done idx s) else s,
       Returned (drawn_row med1))
    /\ medications
         (if clicked_here clicked idx then fst (mark_done idx s) else s)
       !! idx = Some med1.
Proof.
  intros Hmed. unfold reminder_loop_body, bind, get. rewrite Hmed.
  destruct (clicked_here clicked idx).
  - destruct (mark_done_cases idx s) as [(med' & Hmed' & ->)|[Hge _]].
    + rewrite Hmed in Hmed'. injection Hmed' as <-.
      cbn [fst medications set_medications].
      rewrite list_lookup_insert_eq
        by (apply lookup_lt_Some in Hmed; exact Hmed).
      exists (set_done med). split; reflexivity.
    + apply lookup_lt_Some in Hmed. lia.
  - unfold ret. rewrite Hmed. exists med. split; reflexivity.
Qed.

Lemma clicked_here_true clicked idx :
  clicked_here clicked idx = true <-> clicked = Some idx.
Proof.
  destruct clicked as [c|]; cbn.
  - rewrite Nat.eqb_eq. split; congruence.
  - split; discriminate.
Qed.

(** The state a pass over the positions [idxs] ends in, and the rows it
    draws. *)
Lemma loop_over clicked (idxs : list nat) (s : State) :
  Forall (fun j => (j < length (medications s))%nat) idxs ->
  exists rows,
    reminder_loop clicked idxs s
    = (match clicked with
       | Some c => if existsb (Nat.eqb c) idxs then fst (mark_done c s) else s
       | None => s
       end, Returned rows)
    /\ Forall2 (fun j row =>
                  exists med,
                    medications
                      (match clicked with
                       | Some c => if existsb (Nat.eqb c) idxs
                                   then fst (mark_done c s) else s
                       | None => s
                       end) !! j = Some med
                    /\ row = drawn_row med) idxs rows.
Proof.
  revert s. induction idxs as [|idx rest IH]; intros s Hall.
  - exists []. split; [destruct clicked; reflexivity|constructor].
  - apply Forall_cons in Hall. destruct Hall as [Hidx Hrest].
    destruct (lookup_lt_is_Some_2 _ _ Hidx) as [med Hmed].
    destruct (loop_body_at clicked idx s med Hmed) as (med1 & Hbody & Hmed1).
    cbn [reminder_loop]. unfold bind at 1. rewrite Hbody.
    set (s1 := if clicked_here clicked idx then fst (mark_done idx s) else s)
      in *.
    assert (Hlen : length (medications s1) = length (medications s)).
    { unfold s1. destruct (clicked_here clicked idx);
        [apply mark_done_length|reflexivity]. }
    assert (Hrest1 : Forall (fun j => (j < length (medications s1))%nat) rest)
      by (rewrite Hlen; exact Hrest).
    destruct (IH s1 Hrest1) as (rows & Hloop & Hrows).
    unfold bind. rewrite Hloop. unfold ret.
    exists (drawn_row med1 :: rows).
    destruct clicked as [c|]; cbn [existsb clicked_here] in *.
    + destruct (Nat.eqb c idx) eqn:Hc; cbn [orb].
      * apply Nat.eqb_eq in Hc. subst c. unfold s1 in *.
        assert (Hsame : (if existsb (Nat.eqb idx) rest
                         then fst (mark_done idx (fst (mark_done idx s)))
                         else fst (mark_done idx s))
                        = fst (mark_done idx s))
          by (destruct (existsb (Nat.eqb idx) rest);
              [apply mark_done_again|reflexivity]).
        rewrite Hsame in *. split; [reflexivity|].
        constructor; [exists med1; split; [exact Hmed1|reflexivity]|exact Hrows].
      * unfold s1 in *. split; [reflexivity|].
        constructor; [|exact Hrows].
        exists med1. split; [|reflexivity].
        destruct (existsb (Nat.eqb c) rest); [|exact Hmed1].
        rewrite mark_done_elsewhere; [exact Hmed1|].
        apply Nat.eqb_neq in Hc. congruence.
    + unfold s1 in *. split; [reflexivity|].
      constructor; [exists med1; split; [exact Hmed1|reflexivity]|exact Hrows].
Qed.

Lemma rows_of_list (meds : list medication) (rows : list reminder_row) :
  Forall2 (fun j row => exists med, meds !! j = Some med /\ row = drawn_row med)
          (seq 0 (length meds)) rows ->
  rows = List.map drawn_row meds.
Proof.
  intros H. apply list_eq. intros i.
  pose proof (Forall2_length _ _ _ H) as Hlen. rewrite length_seq in Hlen.
  change (List.map drawn_row meds) with (drawn_row <$> meds).
  rewrite list_lookup_fmap.
  destruct (decide (i < length meds)%nat) as [Hlt|Hge].
  - destruct (Forall2_lookup_l _ _ _ i i H (lookup_seq_lt 0 _ i Hlt))
      as (row & Hrow & med & Hmed & ->).
    rewrite Hrow, Hmed. reflexivity.
  - rewrite (lookup_ge_None_2 rows i) by lia.
    rewrite (lookup_ge_None_2 meds i) by lia. reflexivity.
Qed.

(** X17.  One run of [medication_reminder] never raises.  It leaves the
    state the pressed button asks for (the reminder appended, or the
    checked one done, and nothing for a position that has no button), and
    it draws one row per reminder of that final list, in order: a reminder
    checked in this run already shows as done. *)
Theorem reminder_panel_draws_final_list :
  forall (new_med : str) (med_time : time_of_day) (add_clicked : bool)
         (clicked : option nat) (s : State),
    let s0 := if add_clicked then fst (add_reminder new_med med_time s)
              else s in
    let sf := match clicked with
              | Some c => fst (mark_done c s0)
              | None => s0
              end in
    medication_reminder new_med med_time add_clicked clicked s
    = (sf, Returned (List.map drawn_row (medications sf))).
Proof.
  intros new_med med_time add_clicked clicked s s0 sf.
  assert (Hstart : medication_reminder new_med med_time add_clicked clicked s
                   = reminder_loop clicked (seq 0 (length (medications s0))) s0).
  { unfold medication_reminder, s0. destruct add_clicked; reflexivity. }
  rewrite Hstart.
  assert (Hall : Forall (fun j => (j < length (medications s0))%nat)
                        (seq 0 (length (medications s0)))).
  { apply List.Forall_forall. intros j Hj. apply in_seq in Hj. lia. }
  destruct (loop_over clicked _ s0 Hall) as (rows & Hloop & Hrows).
  assert (Hfinal : match clicked with
                   | Some c =>
                     if existsb (Nat.eqb c) (seq 0 (length (medications s0)))
                     then fst (mark_done c s0) else s0
                   | None => s0
                   end = sf).
  { unfold sf. destruct clicked as [c|]; [|reflexivity].
    destruct (existsb (Nat.eqb c) (seq 0 (length (medications s0)))) eqn:Hex;
      [reflexivity|].
    destruct (mark_done_cases c s0) as [(med & Hmed & _)|[_ ->]];
      [|reflexivity].
    apply lookup_lt_Some in Hmed.
    assert (Htrue : existsb (Nat.eqb c) (seq 0 (length (medications s0)))
                    = true).
    { apply existsb_exists. exists c. split; [apply in_seq; lia|].
      apply Nat.eqb_refl. }
    congruence. }
  rewrite Hfinal in Hloop, Hrows. rewrite Hloop. f_equal. f_equal.
  apply rows_of_list.
  assert (Hlen : length (medications sf) = length (medications s0)).
  { unfold sf. destruct clicked; [apply mark_done_length|reflexivity]. }
  rewrite Hlen. exact Hrows.
Qed.

(** A run of the panel with the check of row 1 pressed: both rows are
    drawn, the second with its rule. *)
Example panel_after_check :
  medication_reminder (py "") (TimeOfDay 8 0) false (Some 1%nat)
    (set_medications [Medication (py "阿司匹林") (py "08:00") Pending;
                      Medication (py "布洛芬") (py "20:30") Pending]
       session_defaults)
  = (set_medications [Medication (py "阿司匹林") (py "08:00") Pending;
                      Medication (py "布洛芬") (py "20:30") Done]
       session_defaults,
     Returned [ReminderRow (py "⏰ 08:00") (py "阿司匹林") false;
               ReminderRow (py "⏰ 20:30") (py "布洛芬") true]).
Proof. vm_compute. reflexivity. Qed.

(** ** The profile *)

Section ProfileFacts.

Variable backend : str -> result response.
Variable speech_to_text : ndarray -> result (option str).

Lemma step_profile (s : State) (e : event) :
  user_profile (step backend speech_to_text s e)
  = match e with
    | UpdateProfile n a g =>
      Profile n a g (medical_history (user_profile s))
    | _ => user_profile s
    end.
Proof.
  unfold step. destruct e as [n1 n2 t|a|n1 n2|m tm|idx|n a g]; cbn [handle];
    rewrite ?send_state.
  - apply turn_keeps_rest.
  - reflexivity.
  - apply voice_keeps_reminders_and_profile.
  - reflexivity.
  - destruct (mark_done_cases idx s) as [(med & _ & ->)|[_ ->]]; reflexivity.
  - reflexivity.
Qed.

Lemma step_history (s : State) (e : event) :
  medical_history (user_profile (step backend speech_to_text s e))
  = medical_history (user_profile s).
Proof. rewrite step_profile. destruct e; reflexivity. Qed.

Lemma fold_history (evs : list event) (s : State) :
  medical_history
    (user_profile (fold_left (step backend speech_to_text) evs s))
  = medical_history (user_profile s).
Proof.
  revert s. induction evs as [|e evs IH]; intros s; [reflexivity|].
  cbn [fold_left]. rewrite IH. apply step_history.
Qed.

Lemma fold_profile (evs : list event) (s : State) :
  user_profile (fold_left (step backend speech_to_text) evs s)
  = match last_profile_update evs with
    | Some (n, a, g) => Profile n a g (medical_history (user_profile s))
    | None => user_profile s
    end.
Proof.
  revert s. induction evs as [|e evs IH]; intros s; [reflexivity|].
  cbn [fold_left last_profile_update]. rewrite IH.
  destruct (last_profile_update evs) as [[[n a] g]|].
  - rewrite step_history. reflexivity.
  - rewrite step_profile. destruct e; reflexivity.
Qed.

End ProfileFacts.

(** X18.  In every session the profile is what the last press of the
    update button wrote, the defaults before the first press, and the
    medical history is always the empty list: turns, recordings and
    reminders never touch the profile, and no code writes the history. *)
Theorem profile_is_last_update :
  forall (backend : str -> result response)
         (speech_to_text : ndarray -> result (option str))
         (evs : list event),
    user_profile (run backend speech_to_text evs)
    = match last_profile_update evs with
      | Some (n, a, g) => Profile n a g []
      | None => Profile [] 30 (py "male") []
      end.
Proof.
  intros backend speech_to_text evs. unfold run. rewrite fold_profile.
  destruct (last_profile_update evs) as [[[n a] g]|]; reflexivity.
Qed.

Lemma str_eqb_eq (a b : str) : str_eqb a b = true <-> a = b.
Proof.
  revert b. induction a as [|x a IH]; intros [|y b]; cbn;
    try (split; (reflexivity || discriminate)).
  rewrite andb_true_iff, N.eqb_eq, IH. split.
  - intros [-> ->]. reflexivity.
  - intros [= -> ->]. split; reflexivity.
Qed.

(** X19.  The gender select box is preselected by comparing the stored
    gender with ['male'], but the update button stores the option chosen,
    "男" or "女".  So the box starts at index 0 in a new session, and after
    any update it is preselected at index 1, "女", whichever option was
    stored. *)
Theorem gender_box_preselects_second_after_update :
  forall (new_name : str) (new_age : Z) (new_gender : str) (s : State),
    In new_gender gender_options ->
    gender (user_profile (fst (update_profile new_name new_age new_gender s)))
    = new_gender
    /\ gender_index (fst (update_profile new_name new_age new_gender s))
       = 1%nat
    /\ gender_index session_defaults = 0%nat.
Proof.
  intros new_name new_age new_gender s Hin.
  split; [reflexivity|]. split; [|reflexivity].
  unfold gender_index. cbn [update_profile modify fst user_profile
                              set_user_profile gender].
  destruct Hin as [<-|[<-|[]]]; vm_compute; reflexivity.
Qed.

Lemma gender_box_preselects_second_after_update_witness :
  gender (user_profile
            (fst (update_profile (py "张三") 42 (py "男") session_defaults)))
  = py "男"
  /\ gender_index
       (fst (update_profile (py "张三") 42 (py "男") session_defaults))
     = 1%nat
  /\ gender_index session_defaults = 0%nat.
Proof.
  apply (gender_box_preselects_second_after_update (py "张三") 42 (py "男")
           session_defaults).
  left. reflexivity.
Defined.

(** ** Initialisation and the charts *)

Lemma runs_from (backend : str -> result response)
  (speech_to_text : ndarray -> result (option str))
  (evs : list event) (raw : raw_session) :
  init_session_state (fold_left (main backend speech_to_text) evs raw)
  = fold_left (step backend speech_to_text) evs (init_session_state raw).
Proof.
  revert raw. induction evs as [|e evs IH]; intros raw; [reflexivity|].
  cbn [fold_left]. rewrite IH. unfold main. rewrite init_stored.
  reflexivity.
Qed.

(** X20.  Running [init_session_state] at the start of every script run
    never resets a session: what a sequence of runs of [main] leaves, from
    a session with no key set, is what the events do to the state that was
    initialised once, and every key but the warning is set from the first
    run on. *)
Theorem reruns_keep_the_session :
  forall (backend : str -> result response)
         (speech_to_text : ndarray -> result (option str))
         (evs : list event) (e : event),
    fold_left (main backend speech_to_text) (evs ++ [e]) empty_session
    = stored (run backend speech_to_text (evs ++ [e]))
    /\ init_session_state
         (fold_left (main backend speech_to_text) evs empty_session)
       = run backend speech_to_text evs.
Proof.
  intros backend speech_to_text evs e. split.
  - rewrite fold_left_app. cbn [fold_left]. unfold main at 1.
    rewrite runs_from. unfold run. rewrite fold_left_app. reflexivity.
  - apply runs_from.
Qed.

Lemma fst_snd_columns {A B} (table : list (A * B)) :
  combine (List.map fst table) (List.map snd table) = table.
Proof.
  induction table as [|[a b] table IH]; cbn; [reflexivity|].
  rewrite IH. reflexivity.
Qed.

(** X21.  The probability chart is drawn exactly when the diagnosis data
    has a probability table with at least one entry; its two columns then
    have one cell per entry and, paired up again, give back the table in
    its order. *)
Theorem probability_chart_is_the_table :
  forall (s : State),
    match render_diagnosis_report s with
    | Some frame =>
      probabilities (diagnosis_data s)
      = Some (combine (bf_disease frame) (bf_probability frame))
      /\ length (bf_disease frame) = length (bf_probability frame)
      /\ bf_disease frame <> []
    | None => probability_values (diagnosis_data s) = []
    end.
Proof.
  intros s. unfold render_diagnosis_report, probability_values.
  destruct (probabilities (diagnosis_data s)) as [[|entry table]|];
    [reflexivity| |reflexivity].
  cbn [bf_disease bf_probability].
  split; [rewrite fst_snd_columns; reflexivity|].
  split; [rewrite !length_map; reflexivity|discriminate].
Qed.

(** X22.  The symptom chart is drawn whenever the diagnosis data has a
    network, also one without links, and it has one point per link, in
    order, with the link's source, target and value; without a network
    nothing is drawn. *)
Theorem symptom_chart_has_a_point_per_link :
  forall (s : State),
    match render_symptom_network s, symptom_network (diagnosis_data s) with
    | Some frame, Some net =>
      forall i,
        (sf_source frame !! i, sf_target frame !! i, sf_value frame !! i)
        = match links net !! i with
          | Some l => (Some (source l), Some (target l), Some (value l))
          | None => (None, None, None)
          end
    | None, None => True
    | _, _ => False
    end.
Proof.
  intros s. unfold render_symptom_network.
  destruct (symptom_network (diagnosis_data s)) as [net|]; [|exact I].
  intros i. cbn [sf_source sf_target sf_value].
  change (List.map source (links net)) with (source <$> links net).
  change (List.map target (links net)) with (target <$> links net).
  change (List.map value (links net)) with (value <$> links net).
  rewrite !list_lookup_fmap.
  destruct (links net !! i); reflexivity.
Qed.

(** X23.  With the mock backend the charts have two states only: in a
    session whose log is empty neither is drawn; once the log has a message
    both show the mock's fixed data, three bars and one point, whatever was
    sent since. *)
Theorem mock_charts_are_fixed :
  forall (speech_to_text : ndarray -> result (option str))
         (evs : list event),
    (conversation (run mock_backend speech_to_text evs) = []
     /\ render_diagnosis_report (run mock_backend speech_to_text evs) = None
     /\ render_symptom_network (run mock_backend speech_to_text evs) = None)
    \/ (conversation (run mock_backend speech_to_text evs) <> []
        /\ render_diagnosis_report (run mock_backend speech_to_text evs)
           = Some (BarFrame [py "感冒"; py "流感"; py "偏头痛"]
                            [0.65%float; 0.25%float; 0.1%float])
        /\ render_symptom_network (run mock_backend speech_to_text evs)
           = Some (ScatterFrame [py "头痛"] [py "发热"] [0.8%float])).
Proof.
  intros speech_to_text evs.
  assert (H : (conversation (run mock_backend speech_to_text evs) = []
               /\ diagnosis_data (run mock_backend speech_to_text evs)
                  = empty_dict)
              \/ (conversation (run mock_backend speech_to_text evs) <> []
                  /\ diagnosis_data (run mock_backend speech_to_text evs)
                     = get_data (get_ai_response []))).
  { apply (chat_invariant mock_backend speech_to_text
             (fun log d _ =>
                (log = [] /\ d = empty_dict)
                \/ (log <> [] /\ d = get_data (get_ai_response [])))).
    - left. split; reflexivity.
    - intros s n1 n2 t IH.
      destruct (turn_cases mock_backend n1 n2 t s)
        as [[_ ->]|[[_ (r & a & Hans & ->)]|[_ [Hans _]]]];
        cbn [fst conversation diagnosis_data].
      + exact IH.
      + right. split; [intros Hnil; apply app_eq_nil in Hnil;
                       destruct Hnil as [_ Hnil]; discriminate Hnil|].
        rewrite mock_answers in Hans. injection Hans as <- _. reflexivity.
      + rewrite mock_answers in Hans. discriminate Hans. }
  unfold render_diagnosis_report, render_symptom_network.
  destruct H as [[Hlog ->]|[Hlog ->]]; [left|right];
    (split; [exact Hlog|]); split; vm_compute; reflexivity.
Qed.

(** ** The stop button on an unusable buffer *)

(** X24.  Pressing stop with nothing recorded, or with frames of different
    widths in the buffer, raises [ValueError] before the recogniser and the
    backend are reached, and changes nothing. *)
Theorem stop_on_unusable_buffer_raises :
  forall (backend : str -> result response)
         (speech_to_text : ndarray -> result (option str))
         (now1 now2 : str) (s : State),
    (audio_buffer s = [] \/ same_width (audio_buffer s) = false) ->
    voice_input_component backend speech_to_text now1 now2 s
    = (s, Raised ValueError).
Proof.
  intros backend speech_to_text now1 now2 s H.
  apply voice_nothing_to_concatenate. unfold np_concatenate.
  destruct (audio_buffer s) as [|a rest]; [reflexivity|].
  destruct H as [H|H]; [discriminate H|]. rewrite H. reflexivity.
Qed.

Lemma stop_on_unusable_buffer_raises_witness :
  voice_input_component timeout_backend recogniser_down
    (py "09:30:00") (py "09:30:01") session_defaults
  = (session_defaults, Raised ValueError).
Proof.
  apply (stop_on_unusable_buffer_raises timeout_backend recogniser_down
           (py "09:30:00") (py "09:30:01") session_defaults).
  left. reflexivity.
Defined.

(** X25.  The audio buffer is cleared exactly by a press of stop that
    returns: after such a press the buffer is empty, and a second press
    with no frame in between raises [ValueError] and changes nothing; after
    a press that ended in an exception the buffer is as it was before the
    press. *)
Theorem stop_clears_exactly_when_it_returns :
  forall (backend : str -> result response)
         (speech_to_text : ndarray -> result (option str))
         (now1 now2 now3 now4 : str) (s s' : State) (r : result unit),
    voice_input_component backend speech_to_text now1 now2 s = (s', r) ->
    match r with
    | Returned _ =>
      audio_buffer s' = []
      /\ voice_input_component backend speech_to_text now3 now4 s'
         = (s', Raised ValueError)
    | Raised _ => audio_buffer s' = audio_buffer s
    end.
Proof.
  intros backend speech_to_text now1 now2 now3 now4 s s' r H.
  assert (Hbuf : match r with
                 | Returned _ => audio_buffer s' = []
                 | Raised _ => audio_buffer s' = audio_buffer s
                 end).
  { destruct (np_concatenate (audio_buffer s)) as [arr|e] eqn:Harr.
    - destruct (speech_to_text arr) as [text|e] eqn:Htext.
      + rewrite (voice_transcribed _ _ _ _ _ arr text Harr Htext) in H.
        pose proof (transcript_keeps_audio_buffer backend now1 now2 text s)
          as Hkeep.
        destruct (submit_transcript backend now1 now2 text s) as [s1 [[]|e]];
          injection H as <- <-; [reflexivity|exact Hkeep].
      + rewrite (voice_recogniser_raises _ _ _ _ _ arr e Harr Htext) in H.
        injection H as <- <-. reflexivity.
    - unfold voice_input_component, bind, get, call in H.
      rewrite Harr in H. injection H as <- <-. reflexivity. }
  destruct r as [u|e]; [|exact Hbuf].
  split; [exact Hbuf|].
  apply voice_nothing_to_concatenate. rewrite Hbuf. reflexivity.
Qed.

Lemma stop_clears_exactly_when_it_returns_witness :
  audio_buffer
    (set_audio_buffer []
       (fst (submit_transcript mock_backend (py "09:30:00") (py "09:30:01")
               (Some (py "头痛")) two_frames))) = []
  /\ voice_input_component mock_backend hears_headache
       (py "09:31:00") (py "09:31:01")
       (set_audio_buffer []
          (fst (submit_transcript mock_backend (py "09:30:00") (py "09:30:01")
                  (Some (py "头痛")) two_frames)))
     = (set_audio_buffer []
          (fst (submit_transcript mock_backend (py "09:30:00") (py "09:30:01")
                  (Some (py "头痛")) two_frames)),
        Raised ValueError).
Proof.
  apply (stop_clears_exactly_when_it_returns mock_backend hears_headache
           (py "09:30:00") (py "09:30:01") (py "09:31:00") (py "09:31:01")
           two_frames
           (set_audio_buffer []
              (fst (submit_transcript mock_backend (py "09:30:00")
                      (py "09:30:01") (Some (py "头痛")) two_frames)))
           (Returned tt)).
  vm_compute. reflexivity.
Defined.
